(** * obspy.core.util: a shallow embedding

    The module [obspy/core/util.py] provides
    - [Stats], a dictionary whose attribute namespace is the dictionary itself,
    - [DateTime], a [datetime.datetime] subclass that converts to and from
      floating point UTC timestamps,
    - [getFormatsAndMethods], which collects the waveform parsers that can be
      imported.

    Python objects are modelled the way the interpreter has them: floats are
    IEEE 754 binary64 values ([spec_float] with [prec = 53], [emax = 1024]),
    dictionaries are finite maps stored in a heap of objects, exceptions are
    results of a small state and exception monad. *)

From Stdlib Require Import ZArith List Bool Lia.
From Stdlib Require Import SpecFloat.
From stdpp Require Import gmap strings list fin_maps.
From stdpp Require Import sorting.

Local Open Scope Z_scope.

(** * Exceptions and results *)

(** A raised exception: its class, its message and the stack trace that
    [traceback.format_exc] prints in front of them. *)
Record pyexc := PyExc {
  exc_class : string;
  exc_msg : string;
  exc_stack : string
}.

Inductive result (A : Type) : Type :=
| Ok (a : A)
| Raise (e : pyexc).
Arguments Ok {A} a.
Arguments Raise {A} e.

Definition is_raise {A} (r : result A) : bool :=
  match r with Ok _ => false | Raise _ => true end.

Definition ValueError (msg : string) : pyexc := PyExc "ValueError" msg "".
Definition TypeError (msg : string) : pyexc := PyExc "TypeError" msg "".
Definition KeyError (msg : string) : pyexc := PyExc "KeyError" msg "".
Definition AttributeError (msg : string) : pyexc := PyExc "AttributeError" msg "".
Definition IndexError (msg : string) : pyexc := PyExc "IndexError" msg "".
Definition ImportError (msg : string) : pyexc := PyExc "ImportError" msg "".

(** * The format registry: [getFormatsAndMethods] *)

Module Registry.

(** A function object exported by a parser module. *)
Record pyfun := PyFun { fun_module : string; fun_name : string }.

(** The Python values the function builds. *)
#[local] Unset Elimination Schemes.
Inductive pyobj : Type :=
| OStr (s : string)
| OFun (f : pyfun)
| OList (l : list pyobj)
| OTuple (l : list pyobj).
#[local] Set Elimination Schemes.

(** What [from <module> import is, read, write] does for one parser module:
    it binds the three names, or the module is not found, or something
    raises while the module is imported or while a name is bound. *)
Inductive backend : Type :=
| Present (is_ read_ write_ : pyfun)
| Missing (stack : string)
| Raising (e : pyexc).

Record backends := Backends { mseed : backend; gse2 : backend; wav : backend }.

(** The function's two local lists and the standard output. *)
Record state := State {
  temp : list pyobj;
  failure : list string;
  stdout : list string
}.

Definition M (A : Type) : Type := state -> result A * state.

Definition ret {A} (a : A) : M A := fun s => (Ok a, s).
Definition raise {A} (e : pyexc) : M A := fun s => (Raise e, s).
Definition bind {A B} (m : M A) (k : A -> M B) : M B :=
  fun s => match m s with
           | (Ok a, s') => k a s'
           | (Raise e, s') => (Raise e, s')
           end.

(** [try: body except: handler]: a bare [except] catches every exception;
    what the body did to the state before it raised stays done. *)
Definition try_except {A} (body : M A) (handler : pyexc -> M A) : M A :=
  fun s => match body s with
           | (Ok a, s') => (Ok a, s')
           | (Raise e, s') => handler e s'
           end.

#[export] Instance M_ret : MRet M := @ret.
#[export] Instance M_bind : MBind M := fun A B k m => bind m k.

Definition set_temp (l : list pyobj) : M unit :=
  fun s => (Ok tt, State l (failure s) (stdout s)).
Definition set_failure (l : list string) : M unit :=
  fun s => (Ok tt, State (temp s) l (stdout s)).
Definition get_temp : M (list pyobj) := fun s => (Ok (temp s), s).
Definition get_failure : M (list string) := fun s => (Ok (failure s), s).
Definition temp_append (x : pyobj) : M unit :=
  fun s => (Ok tt, State (temp s ++ [x]) (failure s) (stdout s)).
Definition failure_append (x : string) : M unit :=
  fun s => (Ok tt, State (temp s) (failure s ++ [x]) (stdout s)).
(** [print x] writes one line. *)
Definition print (x : string) : M unit :=
  fun s => (Ok tt, State (temp s) (failure s) (stdout s ++ [x])).

(** [traceback.format_exc()] inside a handler: the stack, then the class and
    the message of the exception being handled. *)
Definition format_exc (e : pyexc) : string :=
  "Traceback (most recent call last):" +:+ exc_stack e +:+
  exc_class e +:+ ": " +:+ exc_msg e.

(** [from obspy.<fmt>.core import is<FMT>, read<FMT>, write<FMT>] *)
Definition import_from (modname : string) (b : backend)
  : M (pyfun * pyfun * pyfun) :=
  match b with
  | Present i r w => ret (i, r, w)
  | Missing stack =>
      raise (PyExc "ImportError" ("No module named " +:+ modname) stack)
  | Raising e => raise e
  end.

(** [failure[_i]] *)
Definition failure_item (i : nat) : M string :=
  l ← get_failure;
  match l !! i with
  | Some x => ret x
  | None => raise (IndexError "list index out of range")
  end.

(** [for _i in xrange(n): body _i] *)
Fixpoint for_xrange_from (start n : nat) (body : nat -> M unit) : M unit :=
  match n with
  | O => ret tt
  | S n' => body start;; for_xrange_from (S start) n' body
  end.
Definition for_xrange (n : nat) (body : nat -> M unit) : M unit :=
  for_xrange_from 0 n body.

Definition getFormatsAndMethods (env : backends) (verbose : bool) : M pyobj :=
  set_temp [];;
  set_failure [];;
  try_except
    ('(isMSEED, readMSEED, writeMSEED) ← import_from "obspy.mseed.core" (mseed env);
     temp_append (OList [OStr "MSEED"; OFun isMSEED; OFun readMSEED; OFun writeMSEED]))
    (fun e => failure_append (format_exc e));;
  try_except
    ('(isGSE2, readGSE2, writeGSE2) ← import_from "obspy.gse2.core" (gse2 env);
     temp_append (OList [OStr "GSE2"; OFun isGSE2; OFun readGSE2; OFun writeGSE2]))
    (fun e => failure_append (format_exc e));;
  try_except
    ('(isWAV, readWAV, writeWAV) ← import_from "obspy.wav.core" (wav env);
     temp_append (OList [OStr "WAV"; OFun isWAV; OFun readWAV; OFun writeWAV]))
    (fun e => failure_append (format_exc e));;
  (if verbose
   then l ← get_failure;
        for_xrange (length l) (fun _i => x ← failure_item _i; print x)
   else ret tt);;
  t ← get_temp;
  ret (OList t).

(** ** Reading the outcome off the environment *)

(** The fixed candidate order. *)
Definition candidates (env : backends) : list (string * string * backend) :=
  [("MSEED", "obspy.mseed.core", mseed env);
   ("GSE2", "obspy.gse2.core", gse2 env);
   ("WAV", "obspy.wav.core", wav env)].

Definition candidate_names : list string := ["MSEED"; "GSE2"; "WAV"].

(** The exception a candidate's import statement raises, if any. *)
Definition import_error (modname : string) (b : backend) : option pyexc :=
  match b with
  | Present _ _ _ => None
  | Missing stack =>
      Some (PyExc "ImportError" ("No module named " +:+ modname) stack)
  | Raising e => Some e
  end.

(** The descriptor of a candidate that binds. *)
Definition descriptor (name : string) (b : backend) : option pyobj :=
  match b with
  | Present i r w => Some (OList [OStr name; OFun i; OFun r; OFun w])
  | _ => None
  end.

Definition bound_descriptors (env : backends) : list pyobj :=
  omap (fun c => descriptor c.1.1 c.2) (candidates env).

Definition captured_traces (env : backends) : list string :=
  omap (fun c => format_exc <$> import_error c.1.2 c.2) (candidates env).

(** The backend behind a format name. *)
Definition backend_of (env : backends) (name : string) : backend :=
  if String.eqb name "MSEED" then mseed env
  else if String.eqb name "GSE2" then gse2 env
  else wav env.

Definition binds (b : backend) : bool :=
  match b with Present _ _ _ => true | _ => false end.

(** The fixed candidate order restricted to the backends that bind. *)
Definition bound_names (env : backends) : list string :=
  List.filter (fun name => binds (backend_of env name)) candidate_names.

(** The format name of a descriptor. *)
Definition descriptor_name (d : pyobj) : option string :=
  match d with
  | OList (OStr n :: _) => Some n
  | _ => None
  end.

(** What the successful imports bind; every way of failing is the same
    [None]. *)
Definition bound_part (b : backend) : option (pyfun * pyfun * pyfun) :=
  match b with
  | Present i r w => Some (i, r, w)
  | _ => None
  end.

Definition descriptor_of_part (name : string)
    (p : option (pyfun * pyfun * pyfun)) : option pyobj :=
  match p with
  | Some (i, r, w) => Some (OList [OStr name; OFun i; OFun r; OFun w])
  | None => None
  end.

(** The descriptors as a function of the bound parts alone. *)
Definition descriptors_of_parts
    (pm pg pw : option (pyfun * pyfun * pyfun)) : list pyobj :=
  omap (fun c => descriptor_of_part c.1 c.2)
       [("MSEED", pm); ("GSE2", pg); ("WAV", pw)].

(** The return value the specification describes: a pair of the
    descriptors and the captured diagnostics. *)
Definition discover_spec (env : backends) : pyobj :=
  OTuple [OList (bound_descriptors env); OList (OStr <$> captured_traces env)].

Definition initial_state (out : list string) : state := State [] [] out.

End Registry.

(** * Exceptions without state *)

#[export] Instance result_ret : MRet result := @Ok.
#[export] Instance result_bind : MBind result := fun A B k r =>
  match r with Ok a => k a | Raise e => Raise e end.

(** * Python floats: IEEE 754 binary64 *)

Module PyFloat.

Definition prec : Z := 53.
Definition emax : Z := 1024.

Definition fadd : spec_float -> spec_float -> spec_float := SFadd prec emax.
Definition fsub : spec_float -> spec_float -> spec_float := SFsub prec emax.
Definition fmul : spec_float -> spec_float -> spec_float := SFmul prec emax.
Definition fdiv : spec_float -> spec_float -> spec_float := SFdiv prec emax.

(** Python's [==], [<] and [<=] on floats. *)
Definition feqb : spec_float -> spec_float -> bool := SFeqb.
Definition fltb : spec_float -> spec_float -> bool := SFltb.
Definition fleb : spec_float -> spec_float -> bool := SFleb.

(** The double nearest to the number [m * 2^e]; it is [m * 2^e] itself when
    that is a double. *)
Definition of_scaled (m e : Z) : spec_float := binary_normalize prec emax m e false.

(** The C conversion [(double)z] of an integer. *)
Definition of_Z (z : Z) : spec_float := of_scaled z 0.

Definition is_finite (x : spec_float) : bool :=
  match x with
  | S754_zero _ | S754_finite _ _ _ => true
  | S754_infinity _ | S754_nan => false
  end.

(** The C conversion [(long)x] of a finite double: the fraction is dropped. *)
Definition trunc (x : spec_float) : option Z :=
  match x with
  | S754_zero _ => Some 0
  | S754_finite s m e =>
      Some (cond_Zopp s (if 0 <=? e then Z.pos m * 2 ^ e else Z.pos m / 2 ^ (- e)))
  | S754_infinity _ | S754_nan => None
  end.

(** [(long)floor(x)] and [(long)ceil(x)] of a finite double. *)
Definition floor (x : spec_float) : option Z :=
  match x with
  | S754_zero _ => Some 0
  | S754_finite s m e =>
      Some (if 0 <=? e then cond_Zopp s (Z.pos m * 2 ^ e)
            else cond_Zopp s (Z.pos m) / 2 ^ (- e))
  | S754_infinity _ | S754_nan => None
  end.

Definition ceil (x : spec_float) : option Z :=
  match x with
  | S754_zero _ => Some 0
  | S754_finite s m e =>
      Some (if 0 <=? e then cond_Zopp s (Z.pos m * 2 ^ e)
            else - (cond_Zopp (negb s) (Z.pos m) / 2 ^ (- e)))
  | S754_infinity _ | S754_nan => None
  end.

(** The literals of the code. *)
Definition f_0_0 : spec_float := S754_zero false.
Definition f_0_5 : spec_float := of_scaled 1 (-1).
Definition f_1_0 : spec_float := of_Z 1.
Definition f_1_0e6 : spec_float := of_Z 1000000.
Definition f_86400_0 : spec_float := of_Z 86400.

(** The double a decimal literal with [digits] digits after the point
    denotes: the quotient of two integers the division rounds once. *)
Definition of_decimal (n : Z) (digits : Z) : spec_float :=
  fdiv (of_Z n) (of_Z (10 ^ digits)).

(** The number a finite double stands for, times [10^6], is an integer:
    the fractional part of the double is a whole number of microseconds. *)
Definition microsecond_aligned (x : spec_float) : bool :=
  match x with
  | S754_zero _ => true
  | S754_finite _ m e =>
      if 0 <=? e then true else (Z.pos m * 1000000) mod 2 ^ (- e) =? 0
  | S754_infinity _ | S754_nan => false
  end.

End PyFloat.

(** * The proleptic Gregorian calendar of [datetime] and [time.gmtime] *)

Module Calendar.

Definition MINYEAR : Z := 1.
Definition MAXYEAR : Z := 9999.

Definition is_leap (year : Z) : bool :=
  (year mod 4 =? 0) && (negb (year mod 100 =? 0) || (year mod 400 =? 0)).

Definition _days_in_month (month : Z) : Z :=
  match month with
  | 1 => 31 | 2 => 28 | 3 => 31 | 4 => 30 | 5 => 31 | 6 => 30
  | 7 => 31 | 8 => 31 | 9 => 30 | 10 => 31 | 11 => 30 | 12 => 31
  | _ => 0
  end.

Definition _days_before_month (month : Z) : Z :=
  match month with
  | 1 => 0 | 2 => 31 | 3 => 59 | 4 => 90 | 5 => 120 | 6 => 151
  | 7 => 181 | 8 => 212 | 9 => 243 | 10 => 273 | 11 => 304 | 12 => 334
  | _ => 0
  end.

Definition days_in_month (year month : Z) : Z :=
  if (month =? 2) && is_leap year then 29 else _days_in_month month.

Definition days_before_month (year month : Z) : Z :=
  _days_before_month month + (if (2 <? month) && is_leap year then 1 else 0).

Definition days_before_year (year : Z) : Z :=
  let y := year - 1 in
  y * 365 + y / 4 - y / 100 + y / 400.

Definition DI4Y : Z := 1461.
Definition DI100Y : Z := 36524.
Definition DI400Y : Z := 146097.

(** year, month, day to ordinal, 0001-01-01 being day 1 *)
Definition ymd_to_ord (year month day : Z) : Z :=
  days_before_year year + days_before_month year month + day.

(** ordinal to year, month, day *)
Definition ord_to_ymd (ordinal : Z) : Z * Z * Z :=
  let ordinal := ordinal - 1 in
  let n400 := ordinal / DI400Y in
  let n := ordinal mod DI400Y in
  let year := n400 * 400 + 1 in
  let n100 := n / DI100Y in
  let n := n mod DI100Y in
  let n4 := n / DI4Y in
  let n := n mod DI4Y in
  let n1 := n / 365 in
  let n := n mod 365 in
  let year := year + (n100 * 100 + n4 * 4 + n1) in
  if (n1 =? 4) || (n100 =? 4) then (year - 1, 12, 31)
  else
    let leapyear := (n1 =? 3) && (negb (n4 =? 24) || (n100 =? 3)) in
    let month := Z.shiftr (n + 50) 5 in
    let preceding :=
      _days_before_month month + (if (2 <? month) && leapyear then 1 else 0) in
    let '(month, preceding) :=
      if n <? preceding
      then (month - 1, preceding - days_in_month year (month - 1))
      else (month, preceding) in
    (year, month, n - preceding + 1).

(** [datetime.date(1970, 1, 1).toordinal()] *)
Definition _EPOCH_ORD : Z := Eval vm_compute in ymd_to_ord 1970 1 1.

(** The argument checks of the [datetime] constructors. *)
Definition check_date_args (year month day : Z) : result unit :=
  if (year <? MINYEAR) || (MAXYEAR <? year)
  then Raise (ValueError "year is out of range")
  else if (month <? 1) || (12 <? month)
  then Raise (ValueError "month must be in 1..12")
  else if (day <? 1) || (days_in_month year month <? day)
  then Raise (ValueError "day is out of range for month")
  else Ok tt.

Definition check_time_args (h m s us : Z) : result unit :=
  if (h <? 0) || (23 <? h)
  then Raise (ValueError "hour must be in 0..23")
  else if (m <? 0) || (59 <? m)
  then Raise (ValueError "minute must be in 0..59")
  else if (s <? 0) || (59 <? s)
  then Raise (ValueError "second must be in 0..59")
  else if (us <? 0) || (999999 <? us)
  then Raise (ValueError "microsecond must be in 0..999999")
  else Ok tt.

End Calendar.

(** * The [datetime] objects of the standard library *)

Inductive pyclass : Type :=
| datetime_datetime   (* the library class *)
| DateTime_class.     (* its subclass defined in this module *)

Record tzinfo := TzInfo { utcoffset_minutes : Z; tzname : string }.

Record datetime := Datetime {
  dt_class : pyclass;
  year : Z;
  month : Z;
  day : Z;
  hour : Z;
  minute : Z;
  second : Z;
  microsecond : Z;
  dt_tzinfo : option tzinfo
}.

(** [time.struct_time] *)
Record struct_time := StructTime {
  tm_year : Z; tm_mon : Z; tm_mday : Z;
  tm_hour : Z; tm_min : Z; tm_sec : Z;
  tm_wday : Z; tm_yday : Z; tm_isdst : Z
}.

Module datetime_module.
Import Calendar PyFloat.

(** [datetime.datetime.__new__(cls, year, month, day, hour, minute, second,
    microsecond, tzinfo)] *)
Definition datetime_new (cls : pyclass) (y mo d h mi s us : Z)
    (tz : option tzinfo) : result datetime :=
  check_date_args y mo d;;
  check_time_args h mi s us;;
  Ok (Datetime cls y mo d h mi s us tz).

(** [datetime.date(year, month, day).toordinal()] *)
Definition date_toordinal (y mo d : Z) : result Z :=
  check_date_args y mo d;;
  Ok (ymd_to_ord y mo d).

(** The C library's [gmtime]: seconds since the epoch to UTC calendar
    fields, by the proleptic Gregorian rules on floor division. *)
Definition gmtime (timet : Z) : Z * Z * Z * Z * Z * Z :=
  let days := timet / 86400 in
  let rem := timet mod 86400 in
  let '(y, mo, d) := ord_to_ymd (days + _EPOCH_ORD) in
  (y, mo, d, rem / 3600, (rem mod 3600) / 60, rem mod 60).

(** [_PyTime_DoubleToTimet]: the cast to [time_t] (64 bits), refused when
    it loses a second or more. *)
Definition _PyTime_DoubleToTimet (x : spec_float) : result Z :=
  match trunc x with
  | None => Raise (ValueError "timestamp out of range for platform time_t")
  | Some result =>
      if (result <? - 2 ^ 63) || (2 ^ 63 <=? result)
      then Raise (ValueError "timestamp out of range for platform time_t")
      else
        let diff := fsub x (of_Z result) in
        if fleb diff (of_Z (-1)) || fleb f_1_0 diff
        then Raise (ValueError "timestamp out of range for platform time_t")
        else Ok result
  end.

(** [round_to_long]: rounds half away from zero. *)
Definition round_to_long (x : spec_float) : result Z :=
  let r := if fleb f_0_0 x then floor (fadd x f_0_5) else ceil (fsub x f_0_5) in
  match r with
  | Some z => Ok z
  | None => Raise (ValueError "cannot convert float to integer")
  end.

(** [datetime_from_timet_and_us] with [gmtime]: calls [cls(...)]; a seven
    argument call of [DateTime] goes to [datetime.datetime.__new__] as
    well. *)
Definition datetime_from_timet_and_us (cls : pyclass) (timet us : Z)
    : result datetime :=
  let '(y, mo, d, h, mi, s) := gmtime timet in
  let s := if 59 <? s then 59 else s in
  datetime_new cls y mo d h mi s us None.

(** [datetime_from_timestamp] with [gmtime] *)
Definition datetime_from_timestamp (cls : pyclass) (timestamp : spec_float)
    : result datetime :=
  timet ← _PyTime_DoubleToTimet timestamp;
  let fraction := fsub timestamp (of_Z timet) in
  us ← round_to_long (fmul fraction f_1_0e6);
  let '(timet, us) :=
    if us <? 0 then (timet - 1, us + 1000000) else (timet, us) in
  let '(timet, us) :=
    if us =? 1000000 then (timet + 1, 0) else (timet, us) in
  datetime_from_timet_and_us cls timet us.

(** A Python number passed where a C double is expected. *)
Inductive pynumber : Type :=
| PyInt (z : Z)
| PyFloat (x : spec_float).

Definition as_double (n : pynumber) : result spec_float :=
  match n with
  | PyFloat x => Ok x
  | PyInt z =>
      let x := of_Z z in
      if is_finite x then Ok x
      else Raise (PyExc "OverflowError" "long int too large to convert to float" "")
  end.

(** the class method [cls.utcfromtimestamp(timestamp)] *)
Definition utcfromtimestamp (cls : pyclass) (timestamp : pynumber)
    : result datetime :=
  x ← as_double timestamp;
  datetime_from_timestamp cls x.

(** [self.timetuple()] of a datetime without time zone *)
Definition timetuple (self : datetime) : struct_time :=
  StructTime (year self) (month self) (day self)
             (hour self) (minute self) (second self)
             ((ymd_to_ord (year self) (month self) (day self) + 6) mod 7)
             (days_before_month (year self) (month self) + day self)
             (-1).

(** [calendar.timegm] *)
Definition timegm (tuple : struct_time) : result Z :=
  let '(year, month, day, hour, minute, second) :=
    (tm_year tuple, tm_mon tuple, tm_mday tuple,
     tm_hour tuple, tm_min tuple, tm_sec tuple) in
  ord ← date_toordinal year month 1;
  let days := ord - _EPOCH_ORD + day - 1 in
  let hours := days * 24 + hour in
  let minutes := hours * 60 + minute in
  let seconds := minutes * 60 + second in
  Ok seconds.

End datetime_module.

(** * The class [DateTime] *)

Module DateTime.
Import Calendar PyFloat datetime_module.

(** The positional arguments of a call [DateTime(...)]. *)
Inductive pyarg : Type :=
| ANumber (n : pynumber)        (* an int, long or float *)
| ADatetime (dt : datetime)     (* a datetime.datetime instance *)
| AOther.                       (* anything else: a string, a bool, None *)

Inductive new_args : Type :=
| Args1 (arg : pyarg)
| ArgsFields (year month day hour minute second microsecond : Z).

Definition __new__ (args : new_args) : result datetime :=
  match args with
  | Args1 (ANumber arg) =>
      dt ← utcfromtimestamp datetime_datetime arg;
      datetime_new DateTime_class (year dt) (month dt) (day dt)
                   (hour dt) (minute dt) (second dt) (microsecond dt) None
  | Args1 (ADatetime arg) =>
      let dt := arg in
      datetime_new DateTime_class (year dt) (month dt) (day dt)
                   (hour dt) (minute dt) (second dt) (microsecond dt) None
  | Args1 AOther =>
      Raise (TypeError "Required argument 'month' (pos 2) not found")
  | ArgsFields y mo d h mi s us =>
      datetime_new DateTime_class y mo d h mi s us None
  end.

(** [float(n)] of an integer *)
Definition float_of_int (z : Z) : result spec_float :=
  as_double (PyInt z).

Definition timestamp (self : datetime) : result spec_float :=
  secs ← timegm (timetuple self);
  x ← float_of_int secs;
  Ok (fadd x (fdiv (of_Z (microsecond self)) f_1_0e6)).

(** The calendar fields of a value. *)
Definition fields (v : datetime) : Z * Z * Z * Z * Z * Z * Z :=
  (year v, month v, day v, hour v, minute v, second v, microsecond v).

End DateTime.

(** * The class [Stats] *)

Module Stats.
Import PyFloat.

(** Objects live in a heap, at addresses. *)
Definition addr : Type := nat.

(** The values a [Stats] object holds. *)
Inductive value : Type :=
| VNone
| VStr (s : string)
| VInt (z : Z)
| VFloat (x : spec_float)
| VTime (t : datetime)
| VRef (a : addr)            (* a reference to a dictionary object *)
| VClass (name : string)     (* a class object *)
| VMethod (name : string).   (* a method of the class, bound to the object *)

(** The heap: the contents of every dictionary object ([Stats] objects
    are dictionaries), and for every [Stats] object the dictionary its
    [__dict__] slot refers to, once it is set. *)
Record heap := Heap {
  dicts : gmap addr (gmap string value);
  inst_dict : gmap addr addr
}.

Definition H (A : Type) : Type := heap -> result A * heap.

Definition ret {A} (a : A) : H A := fun h => (Ok a, h).
Definition raise {A} (e : pyexc) : H A := fun h => (Raise e, h).
Definition bind {A B} (m : H A) (k : A -> H B) : H B :=
  fun h => match m h with
           | (Ok a, h') => k a h'
           | (Raise e, h') => (Raise e, h')
           end.
Definition lift {A} (r : result A) : H A := fun h => (r, h).

#[export] Instance H_ret : MRet H := @ret.
#[export] Instance H_bind : MBind H := fun A B k m => bind m k.

(** ** Dictionaries *)

(** [d[k] = v] *)
Definition setitem (d : addr) (k : string) (v : value) : H unit :=
  fun h => match dicts h !! d with
           | Some m => (Ok tt, Heap (<[d := <[k := v]> m]> (dicts h)) (inst_dict h))
           | None => (Raise (TypeError "object does not support item assignment"), h)
           end.

(** [d[k]] *)
Definition getitem (d : addr) (k : string) : H value :=
  fun h => match dicts h !! d with
           | Some m =>
               match m !! k with
               | Some v => (Ok v, h)
               | None => (Raise (KeyError k), h)
               end
           | None => (Raise (TypeError "object is unsubscriptable"), h)
           end.


(** The positional argument of [dict.__init__]: a mapping, or an iterable
    of key and value pairs. *)
Inductive init_arg : Type :=
| FromMapping (m : gmap string value)
| FromPairs (l : list (string * value)).

(** [d.update(arg)]: the pairs of an iterable are stored in order, a later
    pair replacing an earlier one with the same key. *)
Definition update (m : gmap string value) (arg : init_arg) : gmap string value :=
  match arg with
  | FromMapping m' => m' ∪ m
  | FromPairs l => foldl (fun acc kv => <[kv.1 := kv.2]> acc) m l
  end.

(** What [dict.__init__] with [self], [args] and [kwargs] stores: the positional
    argument first, the keyword arguments over it. *)
Definition initial_items (args : list init_arg) (kwargs : gmap string value)
    : gmap string value :=
  match args with
  | [] => kwargs
  | arg :: _ => kwargs ∪ update ∅ arg
  end.

Definition dict___init__ (self : addr) (args : list init_arg)
    (kwargs : gmap string value) : H unit :=
  fun h => match dicts h !! self with
           | None => (Raise (TypeError "descriptor '__init__' requires a 'dict' object"), h)
           | Some m =>
               match args with
               | _ :: _ :: _ =>
                   (Raise (TypeError "dict expected at most 1 arguments"), h)
               | [] =>
                   (Ok tt, Heap (<[self := kwargs ∪ m]> (dicts h)) (inst_dict h))
               | [arg] =>
                   (Ok tt, Heap (<[self := kwargs ∪ update m arg]> (dicts h))
                                (inst_dict h))
               end
           end.

(** ** Attributes *)

(** Names that [type(self)] resolves to a data descriptor: these never
    reach the instance dictionary. *)
Definition data_descriptors : list string :=
  ["__dict__"; "__class__"; "__weakref__"].

Definition is_data_descriptor (k : string) : bool :=
  bool_decide (k ∈ data_descriptors).

(** The methods a [Stats] object inherits from [dict]. *)
Definition dict_methods : list string :=
  ["clear"; "copy"; "fromkeys"; "get"; "has_key"; "items"; "iteritems";
   "iterkeys"; "itervalues"; "keys"; "pop"; "popitem"; "setdefault";
   "update"; "values"; "__init__"; "__getitem__"; "__setitem__";
   "__delitem__"; "__contains__"; "__iter__"; "__len__"; "__repr__";
   "__cmp__"; "__eq__"; "__ne__"; "__getattribute__"; "__setattr__";
   "__delattr__"; "__new__"; "__str__"; "__reduce__"; "__reduce_ex__"].

(** The dictionary behind the attributes of [self]; the slot is filled
    with a new dictionary when it is first needed. *)
Definition fresh (h : heap) : addr :=
  S (max_list (elements (dom (dicts h)))).

Definition instance_dict (self : addr) : H addr :=
  fun h => match inst_dict h !! self with
           | Some d => (Ok d, h)
           | None =>
               let d := fresh h in
               (Ok d, Heap (<[d := ∅]> (dicts h)) (<[self := d]> (inst_dict h)))
           end.

(** [self.k = v], that is [setattr(self, k, v)] *)
Definition setattr (self : addr) (k : string) (v : value) : H unit :=
  if String.eqb k "__dict__" then
    match v with
    | VRef d =>
        fun h => match dicts h !! d with
                 | Some _ => (Ok tt, Heap (dicts h) (<[self := d]> (inst_dict h)))
                 | None => (Raise (TypeError "__dict__ must be set to a dictionary"), h)
                 end
    | _ => raise (TypeError "__dict__ must be set to a dictionary")
    end
  else if String.eqb k "__class__" then
    raise (TypeError "__class__ assignment: object layout differs")
  else if String.eqb k "__weakref__" then
    raise (AttributeError "attribute '__weakref__' of 'Stats' objects is not writable")
  else
    d ← instance_dict self;
    setitem d k v.

(** The instance dictionary first, then the class. *)
Definition find_attribute (d : addr) (k : string) : H value :=
  fun h => match dicts h !! d with
           | Some m =>
               match m !! k with
               | Some v => (Ok v, h)
               | None =>
                   if bool_decide (k ∈ dict_methods) then (Ok (VMethod k), h)
                   else (Raise (AttributeError k), h)
               end
           | None => (Raise (AttributeError k), h)
           end.

(** [self.k], that is [getattr(self, k)] *)
Definition getattr (self : addr) (k : string) : H value :=
  if String.eqb k "__dict__" then
    d ← instance_dict self; ret (VRef d)
  else if String.eqb k "__class__" then ret (VClass "Stats")
  else if String.eqb k "__weakref__" then ret VNone
  else
    d ← instance_dict self;
    find_attribute d k.

(** ** The constructor *)

Definition __init__ (self : addr) (args : list init_arg)
    (kwargs : gmap string value) : H unit :=
  dict___init__ self args kwargs;;
  setattr self "__dict__" (VRef self);;
  (* fill some dummy values *)
  setattr self "station" (VStr "dummy");;
  setattr self "sampling_rate" (VFloat f_1_0);;
  setattr self "npts" (VInt (-1));;
  setattr self "network" (VStr "--");;
  setattr self "location" (VStr "");;
  setattr self "channel" (VStr "BHZ");;
  setattr self "dataquality" (VStr "");;
  t ← lift (datetime_module.utcfromtimestamp DateTime_class
              (datetime_module.PyFloat f_0_0));
  setattr self "starttime" (VTime t);;
  t ← lift (datetime_module.utcfromtimestamp DateTime_class
              (datetime_module.PyFloat f_86400_0));
  setattr self "endtime" (VTime t).

(** The call of [Stats] with [args] and [kwargs]: a new empty dictionary object, then
    [__init__] on it. *)
Definition Stats (args : list init_arg) (kwargs : gmap string value) : H addr :=
  fun h =>
    let self := fresh h in
    let h0 := Heap (<[self := ∅]> (dicts h)) (inst_dict h) in
    match __init__ self args kwargs h0 with
    | (Ok _, h') => (Ok self, h')
    | (Raise e, h') => (Raise e, h')
    end.

(** The documented fields and their defaults. *)
Definition epoch_0 : datetime := Datetime DateTime_class 1970 1 1 0 0 0 0 None.
Definition epoch_86400 : datetime := Datetime DateTime_class 1970 1 2 0 0 0 0 None.

Definition defaults : list (string * value) :=
  [("station", VStr "dummy");
   ("sampling_rate", VFloat f_1_0);
   ("npts", VInt (-1));
   ("network", VStr "--");
   ("location", VStr "");
   ("channel", VStr "BHZ");
   ("dataquality", VStr "");
   ("starttime", VTime epoch_0);
   ("endtime", VTime epoch_86400)].

Definition default_of (k : string) : option value :=
  (list_to_map defaults : gmap string value) !! k.

(** A write through one of the two access paths. *)
Inductive write : Type :=
| ByAttribute (k : string) (v : value)
| ByKey (k : string) (v : value).

Definition write_key (w : write) : string :=
  match w with ByAttribute k _ | ByKey k _ => k end.

Definition do_write (self : addr) (w : write) : H unit :=
  match w with
  | ByAttribute k v => setattr self k v
  | ByKey k v => setitem self k v
  end.

Fixpoint do_writes (self : addr) (ws : list write) : H unit :=
  match ws with
  | [] => ret tt
  | w :: ws' => do_write self w;; do_writes self ws'
  end.

Definition empty_heap : heap := Heap ∅ ∅.

(** A constructed [Stats] object: a dictionary that is its own attribute
    namespace. *)
Definition is_stats (h : heap) (self : addr) : Prop :=
  inst_dict h !! self = Some self /\ is_Some (dicts h !! self).

(** The items of a new object after [__init__]: the defaults over whatever
    the caller passed. *)
Definition constructed_items (args : list init_arg) (kwargs : gmap string value)
    : gmap string value :=
  foldl (fun acc kv => <[kv.1 := kv.2]> acc) (initial_items args kwargs) defaults.

(** The writes the dual access survives: keyed writes, and attribute
    writes to names that are not data descriptors. *)
Definition admissible (w : write) : Prop :=
  match w with
  | ByAttribute k _ => is_data_descriptor k = false
  | ByKey _ _ => True
  end.

End Stats.

(** * Checking a property on an initial segment of the integers *)

Fixpoint forall_from (z : Z) (n : nat) (P : Z -> bool) : bool :=
  match n with
  | O => true
  | S n' => P z && forall_from (z + 1) n' P
  end.

Definition forall_below (n : Z) (P : Z -> bool) : bool :=
  forall_from 0 (Z.to_nat n) P.

Module CalendarChecks.
Import Calendar.

(** A date of the calendar: the month exists and has the day. *)
Definition valid_md (y mo d : Z) : bool :=
  (1 <=? mo) && (mo <=? 12) && (1 <=? d) && (d <=? days_in_month y mo).

(** The first 400 year cycle has the years 1 to 400, and the year 400
    begins on day 145732. *)
Definition year_ok (r y : Z) : bool :=
  (1 <=? y) && (y <=? 400) && Bool.eqb (r <=? 145730) (y <=? 399).

(** [ord_to_ymd] yields a date of the calendar whose ordinal is the
    argument, in the right year; checked on the ordinal [r + 1]. *)
Definition ord_ok (r : Z) : bool :=
  let '(y, mo, d) := ord_to_ymd (r + 1) in
  valid_md y mo d && (ymd_to_ord y mo d =? r + 1) && year_ok r y.

(** [ord_to_ymd] after [ymd_to_ord] is the identity on the date number [i]
    of a 400 year cycle laid out with 12 months of 31 days. *)
Definition ymd_ok (i : Z) : bool :=
  let y := i / 372 in
  let mo := (i mod 372) / 31 + 1 in
  let d := i mod 31 + 1 in
  negb (valid_md y mo d) ||
  match ord_to_ymd (ymd_to_ord y mo d) with
  | (y', mo', d') => (y' =? y) && (mo' =? mo) && (d' =? d)
  end.

End CalendarChecks.

(** * The range of the calendar in seconds since the epoch *)

Module EpochRange.

(** 0001-01-01T00:00:00 *)
Definition MIN_TIMET : Z := -62135596800.
(** 10000-01-01T00:00:00, the first second after the calendar *)
Definition MAX_TIMET : Z := 253402300800.

(** The seconds since the epoch of a calendar date and time of day. *)
Definition seconds_of (y mo d h mi s : Z) : Z :=
  (((Calendar.ymd_to_ord y mo d - Calendar._EPOCH_ORD) * 24 + h) * 60 + mi) * 60 + s.

(** The fields are a date of the calendar with a time of day. *)
Definition valid_fields (y mo d h mi s us : Z) : Prop :=
  1 <= y <= 9999 /\ 1 <= mo <= 12 /\ 1 <= d <= Calendar.days_in_month y mo /\
  0 <= h <= 23 /\ 0 <= mi <= 59 /\ 0 <= s <= 59 /\ 0 <= us <= 999999.

Definition valid_datetime (v : datetime) : Prop :=
  valid_fields (year v) (month v) (day v) (hour v) (minute v) (second v)
               (microsecond v).

End EpochRange.

(** * The numbers doubles stand for *)

Module Exact.
Import PyFloat datetime_module.

(** The number a finite double stands for, as an integer: scaled by
    [2^1200], which is more than the smallest exponent of a double takes. *)
Definition Zval (x : spec_float) : Z :=
  match x with
  | S754_finite s m e => cond_Zopp s (Z.pos m) * 2 ^ (e + 1200)
  | _ => 0
  end.

(** A finite double in canonical form; of the two zeros the positive one. *)
Definition vfloat (x : spec_float) : Prop :=
  match x with
  | S754_zero s => s = false
  | S754_finite _ m e => bounded prec emax m e = true
  | _ => False
  end.

(** The number [M * 2^E] is a double. *)
Definition representable (M E : Z) : Prop :=
  exists z : spec_float, vfloat z /\ Zval z = M * 2 ^ (E + 1200).

(** 64 times a double whose fractional part is a whole number of
    microseconds, hence of 64ths of a second. *)
Definition X64 (x : spec_float) : Z :=
  match x with
  | S754_finite s m e =>
      cond_Zopp s (if -6 <=? e then Z.pos m * 2 ^ (e + 6)
                   else Z.pos m / 2 ^ (- 6 - e))
  | _ => 0
  end.

(** The same double, bit for bit. *)
Definition float_same (x y : spec_float) : bool :=
  match x, y with
  | S754_zero s, S754_zero s' => Bool.eqb s s'
  | S754_infinity s, S754_infinity s' => Bool.eqb s s'
  | S754_nan, S754_nan => true
  | S754_finite s m e, S754_finite s' m' e' =>
      Bool.eqb s s' && Pos.eqb m m' && Z.eqb e e'
  | _, _ => false
  end.

(** What [datetime_from_timestamp] does with the fraction [j / 64] of a
    timestamp, for [j = i - 63]: it passes the range test of
    [_PyTime_DoubleToTimet] and is [15625 * j] microseconds. *)
Definition fraction_ok (i : Z) : bool :=
  let j := i - 63 in
  let f := of_scaled j (-6) in
  negb (fleb f (of_Z (-1)) || fleb f_1_0 f) &&
  match round_to_long (fmul f f_1_0e6) with
  | Ok us => us =? 15625 * j
  | Raise _ => false
  end.

(** [15625 * j] microseconds divided by [1.0e6] are [j / 64] seconds. *)
Definition microsecond_ok (j : Z) : bool :=
  float_same (fdiv (of_Z (15625 * j)) f_1_0e6) (of_scaled j (-6)).

End Exact.

(** * Views of a [Stats] object *)

Module StatsViews.
Import Stats.

(** [d.keys()]: the keys of the dictionary, in the order the
    dictionary happens to hold them. *)
Definition keys (d : addr) : H (list string) :=
  fun h => match dicts h !! d with
           | Some m => (Ok ((map_to_list m).*1), h)
           | None => (Raise (AttributeError "keys"), h)
           end.

Definition write_value (w : write) : value :=
  match w with ByAttribute _ v | ByKey _ v => v end.

(** What a write does to the items of a constructed object. *)
Definition apply_write (m : gmap string value) (w : write) : gmap string value :=
  <[write_key w := write_value w]> m.

End StatsViews.

(** * Percentiles: [scoreatpercentile] *)

Module Percentile.
Import PyFloat datetime_module.

(** [sorted(a)] on a list of ints *)
Definition sorted (a : list Z) : list Z := merge_sort Z.le a.

(** [values[i]]: a negative index counts from the end. *)
Definition list_getitem (values : list Z) (i : Z) : result Z :=
  let n := Z.of_nat (length values) in
  let i := if i <? 0 then i + n else i in
  if (i <? 0) || (n <=? i)
  then Raise (IndexError "list index out of range")
  else match values !! Z.to_nat i with
       | Some v => Ok v
       | None => Raise (IndexError "list index out of range")
       end.

(** [int(x)] of a float: the fraction is dropped. *)
Definition int_of_float (x : spec_float) : result Z :=
  match x with
  | S754_nan => Raise (ValueError "cannot convert float NaN to integer")
  | S754_infinity _ =>
      Raise (PyExc "OverflowError" "cannot convert float infinity to integer" "")
  | _ => match trunc x with
         | Some z => Ok z
         | None => Raise (ValueError "cannot convert float to integer")
         end
  end.

(** The C library's [fmod(x, 1.0)]: what [x] has beyond its integral part,
    with the sign of [x]; the result is a double, no rounding occurs. *)
Definition fmod_1 (x : spec_float) : spec_float :=
  match x with
  | S754_zero s => S754_zero s
  | S754_finite s m e =>
      if 0 <=? e then S754_zero s
      else match Z.pos m mod 2 ^ (- e) with
           | 0 => S754_zero s
           | r => of_scaled (cond_Zopp s r) e
           end
  | S754_infinity _ | S754_nan => S754_nan
  end.

(** [x % 1] on a float: [fmod], moved into the range of the divisor. *)
Definition float_mod_1 (x : spec_float) : spec_float :=
  let mod_ := fmod_1 x in
  if fltb mod_ f_0_0 then fadd mod_ f_1_0 else mod_.

(** [a + (b - a) * fraction] on two ints and a float *)
Definition _interpolate (a b : Z) (fraction : spec_float) : result spec_float :=
  d ← as_double (PyInt (b - a));
  let p := fmul d fraction in
  a' ← as_double (PyInt a);
  Ok (fadd a' p).

(** The [limit] argument is a tuple of numbers, [()] by default. *)
Definition tuple_getitem (t : list pynumber) (i : nat) : result pynumber :=
  match t !! i with
  | Some x => Ok x
  | None => Raise (IndexError "tuple index out of range")
  end.

(** [x < a] and [a < x] for a number [x] and a list [a]: neither type
    defines an order with the other, and the interpreter then orders the
    objects by the names of their types, a number counting as the empty
    name. A number is below every list, whatever the two hold. *)
Definition number_lt_list (x : pynumber) (a : list Z) : bool := true.
Definition list_lt_number (a : list Z) (x : pynumber) : bool := false.

(** What the local [values] is bound to: the list, or the element that
    indexing the list with a truth value picks. *)
Inductive pyvalues : Type :=
| Values (l : list Z)
| Element (z : Z).

(** [len(values)] *)
Definition len (values : pyvalues) : result Z :=
  match values with
  | Values l => Ok (Z.of_nat (length l))
  | Element _ => Raise (TypeError "object of type 'int' has no len()")
  end.

(** [values[i]] *)
Definition values_getitem (values : pyvalues) (i : Z) : result Z :=
  match values with
  | Values l => list_getitem l i
  | Element _ => Raise (TypeError "'int' object is unsubscriptable")
  end.

(** [scoreatpercentile(a, per, limit, sort)] on a list of ints. *)
Definition scoreatpercentile (a : list Z) (per : pynumber)
    (limit : list pynumber) (sort : bool) : result pynumber :=
  values ← (if sort then
              let values := sorted a in
              match limit with
              | [] => Ok (Values values)
              | _ :: _ =>
                  lower ← tuple_getitem limit 0;
                  let m1 := number_lt_list lower a in
                  upper ← tuple_getitem limit 1;
                  let m2 := list_lt_number a upper in
                  v ← list_getitem values (Z.b2z (m1 && m2));
                  Ok (Element v)
              end
            else Ok (Values a));
  per' ← as_double per;
  n ← len values;
  n1 ← as_double (PyInt (n - 1));
  let idx := fmul (fdiv per' (of_Z 100)) n1 in
  if feqb (float_mod_1 idx) (of_Z 0) then
    i ← int_of_float idx;
    v ← values_getitem values i;
    Ok (PyInt v)
  else
    i ← int_of_float idx;
    va ← values_getitem values i;
    i' ← int_of_float idx;
    vb ← values_getitem values (i' + 1);
    x ← _interpolate va vb (float_mod_1 idx);
    Ok (PyFloat x).


End Percentile.

(** * Properties of the registry *)

Import Registry.

Lemma getFormatsAndMethods_run (env : backends) (verbose : bool) (s0 : state) :
  getFormatsAndMethods env verbose s0 =
  (Ok (OList (bound_descriptors env)),
   State (bound_descriptors env) (captured_traces env)
         (stdout s0 ++ if verbose then captured_traces env else [])).
Proof.
  destruct env as [[im rm wm|tm|em] [ig rg wg|tg|eg] [iw rw ww|tw|ew]];
    destruct verbose, s0 as [t0 f0 o0];
    unfold getFormatsAndMethods, for_xrange, for_xrange_from, failure_item,
      import_from, mbind, M_bind, bind, try_except, raise, ret, set_temp,
      set_failure, temp_append, failure_append, get_temp, get_failure, print;
    cbn; rewrite ?app_nil_r, <- ?app_assoc; reflexivity.
Qed.

(** C1: whatever each of the three candidate backends does (it binds, its
    module is missing, or it raises while it is imported or bound),
    [getFormatsAndMethods] returns normally; every failed attempt has left
    its formatted trace in the list [failure], in candidate order, and the
    candidates after a failed one were still tried. *)
Theorem discover_never_raises (env : backends) (verbose : bool) (s0 : state) :
  exists (v : pyobj) (s : state),
    getFormatsAndMethods env verbose s0 = (Ok v, s) /\
    failure s = captured_traces env /\
    temp s = bound_descriptors env /\
    (length (temp s) + length (failure s) = 3)%nat.
Proof.
  rewrite getFormatsAndMethods_run.
  eexists _, _; split; [reflexivity|]. cbn [failure temp].
  repeat split.
  destruct env as [[im rm wm|tm|em] [ig rg wg|tg|eg] [iw rw ww|tw|ew]];
    reflexivity.
Qed.

(** C2, as the specification has it, fails: with no backend installed the
    function returns the empty list, not a pair of a descriptor list and a
    diagnostics list. *)
Lemma discover_returns_no_pair :
  let env := Backends (Missing "") (Missing "") (Missing "") in
  (getFormatsAndMethods env false (initial_state [])).1 = Ok (OList []) /\
  (getFormatsAndMethods env false (initial_state [])).1 <> Ok (discover_spec env).
Proof.
  split; [reflexivity | discriminate].
Qed.

(** C2, amended: for every input the function returns the list of the
    descriptors of the backends that bound, and nothing else; the captured
    diagnostics stay in the local list [failure] and reach the caller only
    as lines printed on the standard output when [verbose] is set. *)
Theorem discover_returns_descriptors (env : backends) (verbose : bool)
    (s0 : state) :
  (getFormatsAndMethods env verbose s0).1 = Ok (OList (bound_descriptors env)) /\
  stdout (getFormatsAndMethods env verbose s0).2 =
    stdout s0 ++ (if verbose then captured_traces env else []).
Proof.
  rewrite getFormatsAndMethods_run. split; reflexivity.
Qed.

(** C7: the returned list holds the descriptors of the backends that bound,
    in the fixed order MSEED, GSE2, WAV restricted to them; no format name
    occurs twice; and the list is a function of what the successful imports
    bound alone, so that how and in which order the others failed does not
    show in it. *)
Theorem discover_candidate_order (env : backends) (verbose : bool) (s0 : state) :
  exists ds : list pyobj,
    (getFormatsAndMethods env verbose s0).1 = Ok (OList ds) /\
    omap descriptor_name ds = bound_names env /\
    length (omap descriptor_name ds) = length ds /\
    sublist (bound_names env) candidate_names /\
    NoDup (omap descriptor_name ds) /\
    ds = descriptors_of_parts (bound_part (mseed env)) (bound_part (gse2 env))
                              (bound_part (wav env)).
Proof.
  rewrite getFormatsAndMethods_run. eexists; split; [reflexivity|].
  destruct env as [[im rm wm|tm|em] [ig rg wg|tg|eg] [iw rw ww|tw|ew]];
    cbn; (repeat split; [by repeat (apply sublist_skip || apply sublist_cons
                                      || apply sublist_nil)
                        | by apply (bool_decide_unpack _)]).
Qed.


(** * Properties of [Stats] *)

Import PyFloat Stats.

Lemma bind_ok {A B} (m : H A) (k : A -> H B) (h h' : heap) (a : A) :
  m h = (Ok a, h') -> (m ≫= k) h = k a h'.
Proof. intros E. unfold mbind, H_bind, bind. now rewrite E. Qed.

Lemma not_descriptor_eqb (k : string) :
  is_data_descriptor k = false ->
  String.eqb k "__dict__" = false /\
  String.eqb k "__class__" = false /\
  String.eqb k "__weakref__" = false.
Proof.
  unfold is_data_descriptor, data_descriptors. intros E.
  apply bool_decide_eq_false in E.
  repeat split; apply String.eqb_neq; intros ->; apply E; set_solver.
Qed.

Lemma setitem_run (h : heap) (self : addr) (m : gmap string value)
    (k : string) (v : value) :
  dicts h !! self = Some m ->
  setitem self k v h =
  (Ok tt, Heap (<[self := <[k := v]> m]> (dicts h)) (inst_dict h)).
Proof. intros E. unfold setitem. now rewrite E. Qed.

Lemma setattr_run (h : heap) (self : addr) (m : gmap string value)
    (k : string) (v : value) :
  inst_dict h !! self = Some self ->
  dicts h !! self = Some m ->
  is_data_descriptor k = false ->
  setattr self k v h =
  (Ok tt, Heap (<[self := <[k := v]> m]> (dicts h)) (inst_dict h)).
Proof.
  intros Ei Ed Ek. destruct (not_descriptor_eqb k Ek) as (E1 & E2 & E3).
  unfold setattr. rewrite E1, E2, E3.
  erewrite bind_ok; [|unfold instance_dict; now rewrite Ei].
  now apply setitem_run.
Qed.

Lemma getitem_run (h : heap) (self : addr) (m : gmap string value) (k : string) :
  dicts h !! self = Some m ->
  getitem self k h =
  (match m !! k with Some v => Ok v | None => Raise (KeyError k) end, h).
Proof. intros E. unfold getitem. rewrite E. now destruct (m !! k). Qed.

Lemma getattr_run (h : heap) (self : addr) (m : gmap string value) (k : string) :
  inst_dict h !! self = Some self ->
  dicts h !! self = Some m ->
  is_data_descriptor k = false ->
  getattr self k h =
  (match m !! k with
   | Some v => Ok v
   | None => if bool_decide (k ∈ dict_methods) then Ok (VMethod k)
             else Raise (AttributeError k)
   end, h).
Proof.
  intros Ei Ed Ek. destruct (not_descriptor_eqb k Ek) as (E1 & E2 & E3).
  unfold getattr. rewrite E1, E2, E3.
  erewrite bind_ok; [|unfold instance_dict; now rewrite Ei].
  unfold find_attribute. rewrite Ed.
  destruct (m !! k); [reflexivity|]. now case_bool_decide.
Qed.


Lemma utcfromtimestamp_0 :
  datetime_module.utcfromtimestamp DateTime_class (datetime_module.PyFloat f_0_0)
  = Ok epoch_0.
Proof. vm_compute. reflexivity. Qed.

Lemma utcfromtimestamp_86400 :
  datetime_module.utcfromtimestamp DateTime_class
    (datetime_module.PyFloat f_86400_0) = Ok epoch_86400.
Proof. vm_compute. reflexivity. Qed.

Lemma Stats_run (h : heap) (args : list init_arg) (kwargs : gmap string value) :
  (length args <= 1)%nat ->
  Stats args kwargs h =
  (Ok (fresh h),
   Heap (<[fresh h := constructed_items args kwargs]> (dicts h))
        (<[fresh h := fresh h]> (inst_dict h))).
Proof.
  intros Hlen. unfold Stats. set (self := fresh h).
  assert (dict___init__ self args kwargs
                      (Heap (<[self := ∅]> (dicts h)) (inst_dict h))
                    = (Ok tt, Heap (<[self := initial_items args kwargs]> (dicts h))
                                   (inst_dict h))) as Hinit.
  { unfold dict___init__. cbn [dicts inst_dict].
    rewrite lookup_insert_eq.
    destruct args as [|arg [|]]; cbn in Hlen; try lia;
      cbn [initial_items]; rewrite insert_insert_eq;
      [now rewrite (right_id_L ∅ (∪))|reflexivity]. }
  unfold __init__.
  erewrite bind_ok; [|apply Hinit].
  erewrite bind_ok; cycle 1.
  { unfold setattr. cbn. now rewrite lookup_insert_eq. }
  cbn [dicts inst_dict].
  repeat (erewrite bind_ok;
          [|apply setattr_run;
            [cbn; apply lookup_insert_eq|cbn; apply lookup_insert_eq|reflexivity]];
          cbn [dicts inst_dict]; rewrite insert_insert_eq).
  erewrite bind_ok; [|unfold lift; rewrite utcfromtimestamp_0; reflexivity].
  erewrite bind_ok;
    [|apply setattr_run;
      [cbn; apply lookup_insert_eq|cbn; apply lookup_insert_eq|reflexivity]].
  cbn [dicts inst_dict]; rewrite insert_insert_eq.
  erewrite bind_ok; [|unfold lift; rewrite utcfromtimestamp_86400; reflexivity].
  erewrite setattr_run;
    [|cbn; apply lookup_insert_eq|cbn; apply lookup_insert_eq|reflexivity].
  cbn [dicts inst_dict]; rewrite insert_insert_eq.
  reflexivity.
Qed.

Lemma constructed_items_lookup (args : list init_arg)
    (kwargs : gmap string value) (k : string) :
  constructed_items args kwargs !! k =
  match default_of k with
  | Some d => Some d
  | None => initial_items args kwargs !! k
  end.
Proof.
  unfold constructed_items, default_of, defaults.
  cbn [foldl list_to_map foldr fst snd].
  destruct (decide (k = "station")) as [->|];
    [repeat (rewrite lookup_insert_eq || rewrite lookup_insert_ne by done);
     reflexivity|].
  destruct (decide (k = "sampling_rate")) as [->|];
    [repeat (rewrite lookup_insert_eq || rewrite lookup_insert_ne by done);
     reflexivity|].
  destruct (decide (k = "npts")) as [->|];
    [repeat (rewrite lookup_insert_eq || rewrite lookup_insert_ne by done);
     reflexivity|].
  destruct (decide (k = "network")) as [->|];
    [repeat (rewrite lookup_insert_eq || rewrite lookup_insert_ne by done);
     reflexivity|].
  destruct (decide (k = "location")) as [->|];
    [repeat (rewrite lookup_insert_eq || rewrite lookup_insert_ne by done);
     reflexivity|].
  destruct (decide (k = "channel")) as [->|];
    [repeat (rewrite lookup_insert_eq || rewrite lookup_insert_ne by done);
     reflexivity|].
  destruct (decide (k = "dataquality")) as [->|];
    [repeat (rewrite lookup_insert_eq || rewrite lookup_insert_ne by done);
     reflexivity|].
  destruct (decide (k = "starttime")) as [->|];
    [repeat (rewrite lookup_insert_eq || rewrite lookup_insert_ne by done);
     reflexivity|].
  destruct (decide (k = "endtime")) as [->|];
    [repeat (rewrite lookup_insert_eq || rewrite lookup_insert_ne by done);
     reflexivity|].
  rewrite !lookup_insert_ne by done. now rewrite lookup_empty.
Qed.

Lemma Stats_is_stats (h : heap) (args : list init_arg)
    (kwargs : gmap string value) :
  (length args <= 1)%nat ->
  is_stats (Stats args kwargs h).2 (fresh h).
Proof.
  intros Hlen. rewrite Stats_run by done. unfold is_stats. cbn [snd dicts inst_dict].
  rewrite !lookup_insert_eq. eauto.
Qed.

(** C3, as the specification has it, fails: a station passed to the
    constructor is replaced by the default. *)
Lemma Stats_station_ROTZ_is_dummy :
  exists (self : addr) (h' : heap),
    Stats [FromMapping {["station" := VStr "ROTZ"]}] ∅ empty_heap = (Ok self, h') /\
    (getattr self "station" h').1 = Ok (VStr "dummy") /\
    (getitem self "station" h').1 = Ok (VStr "dummy") /\
    (getattr self "station" h').1 <> Ok (VStr "ROTZ").
Proof.
  eexists _, _. split; [apply Stats_run; cbn; lia|].
  vm_compute. repeat split; try reflexivity. discriminate.
Qed.

(** C3, amended: the constructor stores what it was passed and then assigns
    the nine documented fields, so every documented field has its default
    whatever was passed for it, and exactly the other keys of the initial
    mapping keep the value supplied; with [{"station": "ROTZ"}] every
    documented field, station included, has its default. *)
Theorem Stats_init_defaults_win (h : heap) (args : list init_arg)
    (kwargs : gmap string value) (Hlen : (length args <= 1)%nat) :
  exists (self : addr) (h' : heap),
    Stats args kwargs h = (Ok self, h') /\
    is_stats h' self /\
    forall k : string,
      is_data_descriptor k = false ->
      match default_of k with
      | Some d =>
          (getattr self k h').1 = Ok d /\ (getitem self k h').1 = Ok d
      | None =>
          forall v : value,
            initial_items args kwargs !! k = Some v ->
            (getattr self k h').1 = Ok v /\ (getitem self k h').1 = Ok v
      end.
Proof.
  exists (fresh h), (Stats args kwargs h).2.
  split; [now rewrite Stats_run|].
  split; [now apply Stats_is_stats|].
  intros k Hk. rewrite Stats_run by done. cbn [snd].
  erewrite getattr_run;
    [|apply lookup_insert_eq|apply lookup_insert_eq|done].
  erewrite getitem_run; [|apply lookup_insert_eq].
  cbn [fst]. rewrite constructed_items_lookup.
  destruct (default_of k) as [d|]; [done|].
  intros v ->. done.
Qed.

Lemma Stats_init_defaults_win_witness :
  (length [FromPairs [("station", VStr "ROTZ"); ("azimuth", VInt 90)]] <= 1)%nat /\
  exists (self : addr) (h' : heap),
    Stats [FromPairs [("station", VStr "ROTZ"); ("azimuth", VInt 90)]] ∅
          empty_heap = (Ok self, h') /\
    (getattr self "station" h').1 = Ok (VStr "dummy") /\
    (getattr self "channel" h').1 = Ok (VStr "BHZ") /\
    (getitem self "azimuth" h').1 = Ok (VInt 90).
Proof.
  split; [cbn; lia|].
  destruct (Stats_init_defaults_win empty_heap
              [FromPairs [("station", VStr "ROTZ"); ("azimuth", VInt 90)]] ∅)
    as (self & h' & E & _ & Hk); [cbn; lia|].
  exists self, h'. split; [exact E|].
  split; [exact (proj1 (Hk "station" eq_refl))|].
  split; [exact (proj1 (Hk "channel" eq_refl))|].
  exact (proj2 (Hk "azimuth" eq_refl (VInt 90) eq_refl)).
Defined.







(** * Properties of the calendar *)

Import Calendar CalendarChecks.

Lemma forall_from_spec (n : nat) (P : Z -> bool) (a : Z) :
  forall_from a n P = true ->
  forall z : Z, a <= z < a + Z.of_nat n -> P z = true.
Proof.
  revert a. induction n as [|n IH]; intros a Hall z Hz; [lia|].
  cbn [forall_from] in Hall. apply andb_prop in Hall as [Ha Hall].
  destruct (Z.eq_dec z a) as [->|Hne]; [exact Ha|].
  apply (IH (a + 1)); [exact Hall|lia].
Qed.

Lemma forall_below_spec (n : Z) (P : Z -> bool) :
  forall_below n P = true -> forall z : Z, 0 <= z < n -> P z = true.
Proof.
  intros Hall z Hz. apply (forall_from_spec _ _ _ Hall). lia.
Qed.

Lemma is_leap_period (y q : Z) : is_leap (y + 400 * q) = is_leap y.
Proof.
  unfold is_leap.
  replace ((y + 400 * q) mod 4) with (y mod 4)
    by (replace (y + 400 * q) with (y + (100 * q) * 4) by lia;
        now rewrite Z.mod_add).
  replace ((y + 400 * q) mod 100) with (y mod 100)
    by (replace (y + 400 * q) with (y + (4 * q) * 100) by lia;
        now rewrite Z.mod_add).
  replace ((y + 400 * q) mod 400) with (y mod 400)
    by (replace (y + 400 * q) with (y + q * 400) by lia;
        now rewrite Z.mod_add).
  reflexivity.
Qed.

Lemma days_in_month_period (y q mo : Z) :
  days_in_month (y + 400 * q) mo = days_in_month y mo.
Proof. unfold days_in_month. now rewrite is_leap_period. Qed.

Lemma ymd_to_ord_period (y q mo d : Z) :
  ymd_to_ord (y + 400 * q) mo d = ymd_to_ord y mo d + DI400Y * q.
Proof.
  unfold ymd_to_ord, days_before_month, days_before_year, DI400Y.
  rewrite is_leap_period.
  replace ((y + 400 * q - 1) / 4) with ((y - 1) / 4 + 100 * q)
    by (replace (y + 400 * q - 1) with (y - 1 + (100 * q) * 4) by lia;
        now rewrite Z.div_add).
  replace ((y + 400 * q - 1) / 100) with ((y - 1) / 100 + 4 * q)
    by (replace (y + 400 * q - 1) with (y - 1 + (4 * q) * 100) by lia;
        now rewrite Z.div_add).
  replace ((y + 400 * q - 1) / 400) with ((y - 1) / 400 + q)
    by (replace (y + 400 * q - 1) with (y - 1 + q * 400) by lia;
        now rewrite Z.div_add).
  lia.
Qed.

Lemma ord_to_ymd_period (n q : Z) :
  ord_to_ymd (n + DI400Y * q) =
  let '(y, mo, d) := ord_to_ymd n in (y + 400 * q, mo, d).
Proof.
  unfold ord_to_ymd.
  replace (n + DI400Y * q - 1) with (n - 1 + q * DI400Y) by lia.
  rewrite Z.div_add, Z.mod_add by (unfold DI400Y; lia).
  set (r := (n - 1) mod DI400Y).
  set (n100 := r / DI100Y). set (r1 := r mod DI100Y).
  set (n4 := r1 / DI4Y). set (r2 := r1 mod DI4Y).
  set (n1 := r2 / 365). set (r3 := r2 mod 365).
  replace (((n - 1) / DI400Y + q) * 400 + 1 + (n100 * 100 + n4 * 4 + n1))
    with ((n - 1) / DI400Y * 400 + 1 + (n100 * 100 + n4 * 4 + n1) + 400 * q)
    by lia.
  set (y := (n - 1) / DI400Y * 400 + 1 + (n100 * 100 + n4 * 4 + n1)).
  destruct ((n1 =? 4) || (n100 =? 4)); [f_equal; f_equal; lia|].
  rewrite days_in_month_period.
  destruct (r3 <? _); reflexivity.
Qed.

Lemma ord_cycle_checked : forall_below 146097 ord_ok = true.
Proof. vm_cast_no_check (eq_refl true). Qed.

Lemma ymd_cycle_checked : forall_below 148800 ymd_ok = true.
Proof. vm_cast_no_check (eq_refl true). Qed.


Lemma valid_md_spec (y mo d : Z) :
  valid_md y mo d = true <->
  1 <= mo <= 12 /\ 1 <= d <= days_in_month y mo.
Proof. unfold valid_md. rewrite !andb_true_iff, !Z.leb_le. tauto. Qed.

Lemma days_in_month_le_31 (y mo : Z) : days_in_month y mo <= 31.
Proof.
  unfold days_in_month, _days_in_month.
  destruct ((mo =? 2) && is_leap y); [lia|].
  destruct mo as [|p|p]; try lia.
  do 4 (try destruct p as [p|p|]); lia.
Qed.

Lemma valid_md_period (y q mo d : Z) :
  valid_md (y + 400 * q) mo d = valid_md y mo d.
Proof. unfold valid_md. now rewrite days_in_month_period. Qed.

(** [ord_to_ymd] yields a date of the calendar, and [ymd_to_ord] takes it
    back to the ordinal. *)
Lemma ord_to_ymd_spec (n : Z) :
  valid_md (ord_to_ymd n).1.1 (ord_to_ymd n).1.2 (ord_to_ymd n).2 = true /\
  ymd_to_ord (ord_to_ymd n).1.1 (ord_to_ymd n).1.2 (ord_to_ymd n).2 = n.
Proof.
  assert (exists r q : Z, 0 <= r < 146097 /\ n = r + 1 + DI400Y * q)
    as (r & q & Hr & ->).
  { exists ((n - 1) mod DI400Y), ((n - 1) / DI400Y).
    pose proof (Z.div_mod (n - 1) DI400Y ltac:(discriminate)).
    pose proof (Z.mod_pos_bound (n - 1) DI400Y eq_refl).
    unfold DI400Y in *. lia. }
  rewrite ord_to_ymd_period.
  pose proof (forall_below_spec _ _ ord_cycle_checked r ltac:(lia)) as Hok.
  unfold ord_ok in Hok.
  destruct (ord_to_ymd (r + 1)) as [[y mo] d]. cbn [fst snd].
  apply andb_prop in Hok as [Hok _].
  apply andb_prop in Hok as [Hv Ho]. apply Z.eqb_eq in Ho.
  rewrite valid_md_period, ymd_to_ord_period. split; [exact Hv|lia].
Qed.

(** [ord_to_ymd] takes the ordinal of a date of the calendar back to the
    date. *)
Lemma ymd_to_ord_inv (y mo d : Z) :
  valid_md y mo d = true -> ord_to_ymd (ymd_to_ord y mo d) = (y, mo, d).
Proof.
  intros Hv. pose proof Hv as Hv'. apply valid_md_spec in Hv' as [Hmo Hd].
  pose proof (days_in_month_le_31 y mo) as H31.
  assert (exists y0 q : Z, 0 <= y0 < 400 /\ y = y0 + 400 * q)
    as (y0 & q & Hy0 & Ey).
  { exists (y mod 400), (y / 400).
    pose proof (Z.div_mod y 400 ltac:(discriminate)).
    pose proof (Z.mod_pos_bound y 400 eq_refl). lia. }
  remember (y0 * 372 + (mo - 1) * 31 + (d - 1)) as i eqn:Ei.
  pose proof (forall_below_spec _ _ ymd_cycle_checked i ltac:(lia)) as Hok.
  unfold ymd_ok in Hok.
  assert (i / 372 = y0) as Ei1
    by (symmetry; apply (Z.div_unique i 372 y0 ((mo - 1) * 31 + (d - 1)));
        lia).
  assert (i mod 372 = (mo - 1) * 31 + (d - 1)) as Ei2
    by (symmetry; apply (Z.mod_unique i 372 y0); lia).
  assert (i mod 31 = d - 1) as Ei3
    by (symmetry; apply (Z.mod_unique i 31 (y0 * 12 + (mo - 1))); lia).
  assert (i mod 372 / 31 = mo - 1) as Ei4
    by (rewrite Ei2; symmetry;
        apply (Z.div_unique _ 31 (mo - 1) (d - 1)); lia).
  rewrite Ei1, Ei3, Ei4 in Hok.
  replace (mo - 1 + 1) with mo in Hok by lia.
  replace (d - 1 + 1) with d in Hok by lia.
  rewrite Ey in Hv. rewrite valid_md_period in Hv.
  apply orb_prop in Hok as [Hok|Hok]; [rewrite Hv in Hok; discriminate|].
  rewrite Ey, ymd_to_ord_period, ord_to_ymd_period.
  destruct (ord_to_ymd (ymd_to_ord y0 mo d)) as [[y' mo'] d'].
  apply andb_prop in Hok as [Hok Hd']. apply andb_prop in Hok as [Hy' Hmo'].
  apply Z.eqb_eq in Hy', Hmo', Hd'. now subst.
Qed.

Lemma days_before_month_bounds (y mo : Z) :
  1 <= mo <= 12 -> 0 <= days_before_month y mo <= 335.
Proof.
  intros Hmo. unfold days_before_month, _days_before_month.
  destruct ((2 <? mo) && is_leap y);
    destruct mo as [|p|p]; try lia;
    do 4 (try destruct p as [p|p|]); cbn; lia.
Qed.

Lemma days_in_month_ge_28 (y mo : Z) : 1 <= mo <= 12 -> 28 <= days_in_month y mo.
Proof.
  intros Hmo. unfold days_in_month, _days_in_month.
  destruct ((mo =? 2) && is_leap y); [lia|].
  destruct mo as [|p|p]; try lia.
  do 4 (try destruct p as [p|p|]); lia.
Qed.

(** The days of a month lie inside its year. *)
Lemma month_inside_year (y mo d : Z) :
  valid_md y mo d = true ->
  1 <= days_before_month y mo + d <= (if is_leap y then 366 else 365).
Proof.
  intros Hv. apply valid_md_spec in Hv as [Hmo Hd]. revert Hd.
  unfold days_before_month, days_in_month, _days_before_month, _days_in_month.
  destruct (is_leap y); rewrite ?andb_true_r, ?andb_false_r;
    destruct mo as [|p|p]; try lia;
    do 4 (try destruct p as [p|p|]); cbn; lia.
Qed.

(** The years 1 to 9999 are the ordinals 1 to 3652059. *)
Lemma year_range_ordinal (n : Z) :
  1 <= (ord_to_ymd n).1.1 <= 9999 <-> 1 <= n <= 3652059.
Proof.
  assert (exists r q : Z, 0 <= r < 146097 /\ n = r + 1 + DI400Y * q)
    as (r & q & Hr & ->).
  { exists ((n - 1) mod DI400Y), ((n - 1) / DI400Y).
    pose proof (Z.div_mod (n - 1) DI400Y ltac:(discriminate)).
    pose proof (Z.mod_pos_bound (n - 1) DI400Y eq_refl).
    unfold DI400Y in *. lia. }
  rewrite ord_to_ymd_period.
  pose proof (forall_below_spec _ _ ord_cycle_checked r ltac:(lia)) as Hok.
  unfold ord_ok, year_ok in Hok.
  destruct (ord_to_ymd (r + 1)) as [[y mo] d]. cbn [fst snd].
  apply andb_prop in Hok as [_ Hok].
  apply andb_prop in Hok as [Hok Hlast]. apply andb_prop in Hok as [Hy1 Hy2].
  apply Z.leb_le in Hy1, Hy2. apply eqb_prop in Hlast.
  unfold DI400Y.
  destruct (Z.leb_spec r 145730), (Z.leb_spec y 399); try discriminate; lia.
Qed.

(** * [gmtime] and [timegm] *)

Import datetime_module EpochRange.

Lemma gmtime_spec (t y mo d h mi s : Z) :
  gmtime t = (y, mo, d, h, mi, s) ->
  valid_md y mo d = true /\
  0 <= h <= 23 /\ 0 <= mi <= 59 /\ 0 <= s <= 59 /\
  seconds_of y mo d h mi s = t /\
  (1 <= y <= 9999 <-> MIN_TIMET <= t < MAX_TIMET).
Proof.
  unfold gmtime, seconds_of, MIN_TIMET, MAX_TIMET.
  pose proof (ord_to_ymd_spec (t / 86400 + _EPOCH_ORD)) as [Hv Ho].
  pose proof (year_range_ordinal (t / 86400 + _EPOCH_ORD)) as Hy.
  destruct (ord_to_ymd (t / 86400 + _EPOCH_ORD)) as [[y' mo'] d'].
  cbn [fst snd] in *. intros [= <- <- <- <- <- <-].
  pose proof (Z.div_mod t 86400 ltac:(discriminate)) as Hdm.
  pose proof (Z.mod_pos_bound t 86400 eq_refl) as Hr.
  set (r := t mod 86400) in *.
  pose proof (Z.div_mod r 3600 ltac:(discriminate)).
  pose proof (Z.mod_pos_bound r 3600 eq_refl).
  pose proof (Z.div_mod (r mod 3600) 60 ltac:(discriminate)).
  pose proof (Z.mod_pos_bound (r mod 3600) 60 eq_refl).
  assert (r mod 60 = (r mod 3600) mod 60) as E60.
  { replace r with (r mod 3600 + (60 * (r / 3600)) * 60) at 1 by lia.
    now rewrite Z.mod_add. }
  rewrite E60, Ho. unfold _EPOCH_ORD in *.
  pose proof (Z.mod_pos_bound (r mod 3600) 60 eq_refl).
  repeat split; try exact Hv; try lia.
Qed.

Lemma gmtime_seconds_of (y mo d h mi s : Z) :
  valid_md y mo d = true ->
  0 <= h <= 23 -> 0 <= mi <= 59 -> 0 <= s <= 59 ->
  gmtime (seconds_of y mo d h mi s) = (y, mo, d, h, mi, s).
Proof.
  intros Hv Hh Hmi Hs. unfold gmtime, seconds_of.
  set (n := ymd_to_ord y mo d).
  set (t := (((n - _EPOCH_ORD) * 24 + h) * 60 + mi) * 60 + s).
  assert (t / 86400 = n - _EPOCH_ORD) as Ed
    by (symmetry; apply (Z.div_unique t 86400 _ ((h * 60 + mi) * 60 + s));
        subst t; lia).
  assert (t mod 86400 = (h * 60 + mi) * 60 + s) as Er
    by (symmetry; apply (Z.mod_unique t 86400 (n - _EPOCH_ORD)); subst t; lia).
  rewrite Ed, Er.
  replace (n - _EPOCH_ORD + _EPOCH_ORD) with n by lia.
  subst n. rewrite (ymd_to_ord_inv y mo d Hv).
  set (r := (h * 60 + mi) * 60 + s).
  assert (r / 3600 = h) as ->
    by (symmetry; apply (Z.div_unique r 3600 h (mi * 60 + s)); subst r; lia).
  assert (r mod 3600 = mi * 60 + s) as ->
    by (symmetry; apply (Z.mod_unique r 3600 h); subst r; lia).
  assert ((mi * 60 + s) / 60 = mi) as ->
    by (symmetry; apply (Z.div_unique _ 60 mi s); lia).
  assert (r mod 60 = s) as ->
    by (symmetry; apply (Z.mod_unique r 60 (h * 60 + mi)); subst r; lia).
  reflexivity.
Qed.

(** * Exact floating point arithmetic *)

Import Exact DateTime.

Lemma pos_iter_xO (m n : positive) :
  Z.pos (Pos.iter xO m n) = Z.pos m * 2 ^ Z.pos n.
Proof.
  induction n as [|n IH] using Pos.peano_ind.
  - cbn. lia.
  - rewrite Pos.iter_succ, Pos2Z.inj_succ, Z.pow_succ_r by lia.
    rewrite (Pos2Z.inj_xO (Pos.iter xO m n)), IH. lia.
Qed.

Lemma digits_iter_xO (m n : positive) :
  digits2_pos (Pos.iter xO m n) = (digits2_pos m + n)%positive.
Proof.
  induction n as [|n IH] using Pos.peano_ind.
  - cbn. lia.
  - rewrite Pos.iter_succ. cbn [digits2_pos]. rewrite IH. lia.
Qed.

Lemma digits_bounds (m : positive) :
  2 ^ (Z.pos (digits2_pos m) - 1) <= Z.pos m < 2 ^ Z.pos (digits2_pos m).
Proof.
  induction m as [m IH|m IH|]; cbn [digits2_pos].
  - rewrite Pos2Z.inj_succ, (Pos2Z.inj_xI m).
    replace (Z.succ (Z.pos (digits2_pos m)) - 1)
      with (Z.succ (Z.pos (digits2_pos m) - 1)) by lia.
    rewrite !Z.pow_succ_r by lia.
    set (a := 2 ^ (Z.pos (digits2_pos m) - 1)) in *.
    set (b := 2 ^ Z.pos (digits2_pos m)) in *. lia.
  - rewrite Pos2Z.inj_succ, (Pos2Z.inj_xO m).
    replace (Z.succ (Z.pos (digits2_pos m)) - 1)
      with (Z.succ (Z.pos (digits2_pos m) - 1)) by lia.
    rewrite !Z.pow_succ_r by lia.
    set (a := 2 ^ (Z.pos (digits2_pos m) - 1)) in *.
    set (b := 2 ^ Z.pos (digits2_pos m)) in *. lia.
  - cbn. lia.
Qed.

Lemma digits_unique (m : positive) (k : Z) :
  2 ^ (k - 1) <= Z.pos m < 2 ^ k -> Z.pos (digits2_pos m) = k.
Proof.
  intros [Hlo Hhi]. pose proof (digits_bounds m) as [Dlo Dhi].
  set (d := Z.pos (digits2_pos m)) in *.
  assert (0 < d) by (subst d; lia).
  destruct (Z.lt_trichotomy d k) as [Hlt|[Heq|Hgt]]; [|exact Heq|].
  - assert (2 ^ d <= 2 ^ (k - 1)) by (apply Z.pow_le_mono_r; lia). lia.
  - assert (k <= 0 \/ 0 < k) as [Hk|Hk] by lia.
    + assert (2 ^ k <= 2 ^ 0) by (destruct (Z.eq_dec k 0) as [->|]; [lia|rewrite Z.pow_neg_r by lia; cbn; lia]).
      cbn in *. lia.
    + assert (2 ^ k <= 2 ^ (d - 1)) by (apply Z.pow_le_mono_r; lia). lia.
Qed.

Lemma iter_shr_exact (n m : positive) :
  SpecFloat.iter_pos shr_1 n (Build_shr_record (Z.pos (Pos.iter xO m n)) false false)
  = Build_shr_record (Z.pos m) false false.
Proof.
  revert m. induction n as [n IH|n IH|]; intros m; cbn [SpecFloat.iter_pos Pos.iter].
  - cbn [shr_1 orb]. now rewrite !IH.
  - now rewrite !IH.
  - reflexivity.
Qed.

Lemma fexp_canonical (m : positive) (e : Z) :
  bounded prec emax m e = true ->
  fexp prec emax (Z.pos (digits2_pos m) + e) = e /\ e <= emax - prec.
Proof.
  unfold bounded, canonical_mantissa. intros [H1 H2]%andb_prop.
  apply Z.eqb_eq in H1. apply Z.leb_le in H2. split; assumption.
Qed.

Lemma round_aux_canonical (s : bool) (m : positive) (e : Z) :
  bounded prec emax m e = true ->
  binary_round_aux prec emax s (Z.pos m) e loc_Exact = S754_finite s m e.
Proof.
  intros Hb. destruct (fexp_canonical m e Hb) as [Hf He].
  unfold binary_round_aux, shr_fexp. cbn [Zdigits2 shr_record_of_loc].
  rewrite Hf, Z.sub_diag. cbn [shr shr_m loc_of_shr_record round_nearest_even].
  cbn [Zdigits2]. rewrite Hf, Z.sub_diag. cbn [shr shr_m].
  apply Z.leb_le in He. now rewrite He.
Qed.

(** rounding a mantissa that carries [n] extra zero bits *)
Lemma round_aux_shifted (s : bool) (m n : positive) (e : Z) :
  bounded prec emax m e = true ->
  binary_round_aux prec emax s (Z.pos (Pos.iter xO m n)) (e - Z.pos n) loc_Exact
  = S754_finite s m e.
Proof.
  intros Hb. destruct (fexp_canonical m e Hb) as [Hf He].
  unfold binary_round_aux, shr_fexp. cbn [Zdigits2 shr_record_of_loc].
  rewrite digits_iter_xO, Pos2Z.inj_add.
  replace (Z.pos (digits2_pos m) + Z.pos n + (e - Z.pos n))
    with (Z.pos (digits2_pos m) + e) by lia.
  rewrite Hf. replace (e - (e - Z.pos n)) with (Z.pos n) by lia.
  cbn [shr]. rewrite iter_shr_exact.
  cbn [shr_m loc_of_shr_record round_nearest_even Zdigits2].
  replace (e - Z.pos n + Z.pos n) with e by lia.
  rewrite Hf, Z.sub_diag. cbn [shr shr_m].
  apply Z.leb_le in He. now rewrite He.
Qed.

Lemma binary_round_exact_up (s : bool) (m p : positive) (e E : Z) :
  bounded prec emax m e = true ->
  e <= E -> Z.pos m = Z.pos p * 2 ^ (E - e) ->
  binary_round prec emax s p E = S754_finite s m e.
Proof.
  intros Hb Hle Hv. destruct (fexp_canonical m e Hb) as [Hf He].
  unfold binary_round.
  destruct (Z.eq_dec E e) as [->|Hne].
  - rewrite Z.sub_diag, Z.pow_0_r, Z.mul_1_r in Hv. injection Hv as <-.
    unfold shl_align. rewrite Hf, Z.sub_diag. now apply round_aux_canonical.
  - destruct (E - e) as [|n|n] eqn:En; try lia.
    assert (m = Pos.iter xO p n) as Em.
    { apply Pos2Z.inj. now rewrite pos_iter_xO. }
    assert (Z.pos (digits2_pos p) + E = Z.pos (digits2_pos m) + e) as Ed.
    { rewrite Em, digits_iter_xO, Pos2Z.inj_add. lia. }
    rewrite Ed, Hf. unfold shl_align.
    replace (e - E) with (Z.neg n) by lia.
    rewrite <- Em. now apply round_aux_canonical.
Qed.

Lemma binary_round_exact_down (s : bool) (m p : positive) (e E : Z) :
  bounded prec emax m e = true ->
  E < e -> Z.pos p = Z.pos m * 2 ^ (e - E) ->
  binary_round prec emax s p E = S754_finite s m e.
Proof.
  intros Hb Hlt Hv. destruct (fexp_canonical m e Hb) as [Hf He].
  unfold binary_round.
  destruct (e - E) as [|n|n] eqn:En; try lia.
  assert (p = Pos.iter xO m n) as Ep.
  { apply Pos2Z.inj. now rewrite pos_iter_xO. }
  assert (Z.pos (digits2_pos p) + E = Z.pos (digits2_pos m) + e) as Ed.
  { rewrite Ep, digits_iter_xO, Pos2Z.inj_add. lia. }
  rewrite Ed, Hf. unfold shl_align. rewrite En.
  rewrite Ep. replace E with (e - Z.pos n) by lia.
  now apply round_aux_shifted.
Qed.


Lemma bounded_emin (m : positive) (e : Z) :
  bounded prec emax m e = true -> -1074 <= e <= 971.
Proof.
  intros Hb. destruct (fexp_canonical m e Hb) as [Hf He].
  unfold fexp, emin, prec, emax in *. lia.
Qed.

Lemma pow2_pos (k : Z) : 0 <= k -> 0 < 2 ^ k.
Proof. intros. apply Z.pow_pos_nonneg; lia. Qed.

Lemma pow2_split (a b : Z) : 0 <= a -> 0 <= b -> 2 ^ (a + b) = 2 ^ a * 2 ^ b.
Proof. intros. now apply Z.pow_add_r. Qed.

Lemma of_scaled_exact (s : bool) (m : positive) (e M E : Z) :
  bounded prec emax m e = true ->
  -1200 <= E ->
  cond_Zopp s (Z.pos m) * 2 ^ (e + 1200) = M * 2 ^ (E + 1200) ->
  of_scaled M E = S754_finite s m e.
Proof.
  intros Hb HE Hv. pose proof (bounded_emin m e Hb) as He.
  pose proof (pow2_pos (e + 1200) ltac:(lia)) as Pe.
  pose proof (pow2_pos (E + 1200) ltac:(lia)) as PE.
  assert (forall p : positive,
             Z.pos m * 2 ^ (e + 1200) = Z.pos p * 2 ^ (E + 1200) ->
             binary_round prec emax s p E = S754_finite s m e) as Hr.
  { intros p Hp. destruct (Z.le_gt_cases e E) as [Hle|Hgt].
    - apply binary_round_exact_up; [exact Hb|exact Hle|].
      replace (E + 1200) with ((E - e) + (e + 1200)) in Hp by lia.
      rewrite (pow2_split (E - e) (e + 1200)) in Hp by lia.
      apply (Z.mul_cancel_r _ _ (2 ^ (e + 1200))); lia.
    - apply binary_round_exact_down; [exact Hb|lia|].
      replace (e + 1200) with ((e - E) + (E + 1200)) in Hp by lia.
      rewrite (pow2_split (e - E) (E + 1200)) in Hp by lia.
      apply (Z.mul_cancel_r _ _ (2 ^ (E + 1200))); lia. }
  unfold of_scaled, binary_normalize.
  destruct s, M as [|p|p]; cbn [cond_Zopp] in Hv; try nia.
  - apply Hr. lia.
  - apply Hr. lia.
Qed.

Lemma Zval_inj (x y : spec_float) :
  vfloat x -> vfloat y -> Zval x = Zval y -> x = y.
Proof.
  intros Hx Hy Hv.
  destruct x as [sx| | |sx mx ex], y as [sy| | |sy my ey]; cbn in Hx, Hy;
    try contradiction; subst.
  - reflexivity.
  - cbn in Hv. pose proof (bounded_emin my ey Hy).
    pose proof (pow2_pos (ey + 1200) ltac:(lia)). destruct sy; cbn in Hv; nia.
  - cbn in Hv. pose proof (bounded_emin mx ex Hx).
    pose proof (pow2_pos (ex + 1200) ltac:(lia)). destruct sx; cbn in Hv; nia.
  - pose proof (bounded_emin mx ex Hx).
    rewrite <- (of_scaled_exact sx mx ex (cond_Zopp sx (Z.pos mx)) ex) by (trivial; lia).
    apply of_scaled_exact; [exact Hy|lia|]. cbn in Hv. now rewrite <- Hv.
Qed.


Lemma of_scaled_representable (M E : Z) :
  -1200 <= E -> representable M E ->
  vfloat (of_scaled M E) /\ Zval (of_scaled M E) = M * 2 ^ (E + 1200).
Proof.
  intros HE (z & Hz & Hv).
  assert (of_scaled M E = z) as ->; [|now split].
  destruct z as [s| | |s m e]; cbn in Hz; try contradiction.
  - subst s. cbn in Hv. pose proof (pow2_pos (E + 1200) ltac:(lia)).
    assert (M = 0) as -> by nia. reflexivity.
  - now apply of_scaled_exact.
Qed.

Lemma small_representable (M E : Z) :
  Z.abs M < 2 ^ 53 -> -1021 <= E <= 971 -> representable M E.
Proof.
  intros HM HE. destruct (Z.eq_dec M 0) as [->|Hne].
  { exists (S754_zero false). now split. }
  assert (exists p : positive, Z.pos p = Z.abs M) as [p Hp].
  { exists (Z.to_pos (Z.abs M)). rewrite Z2Pos.id; lia. }
  pose proof (digits_bounds p) as [Dlo Dhi].
  set (d := Z.pos (digits2_pos p)) in *.
  assert (d <= 53) as Hd.
  { destruct (Z.le_gt_cases d 53) as [|Hgt]; [assumption|].
    assert (2 ^ 53 <= 2 ^ (d - 1)) by (apply Z.pow_le_mono_r; lia). lia. }
  assert (0 < d) as Hd0 by (subst d; lia).
  assert (exists m : positive, Z.pos m = Z.pos p * 2 ^ (53 - d) /\
                                Z.pos (digits2_pos m) = 53) as (m & Hm & Hdm).
  { destruct (53 - d) as [|n|n] eqn:En; try lia.
    - exists p. split; [cbn; lia|]. fold d. lia.
    - exists (Pos.iter xO p n). split; [apply pos_iter_xO|].
      rewrite digits_iter_xO, Pos2Z.inj_add. fold d. lia. }
  set (e := E - (53 - d)).
  assert (bounded prec emax m e = true) as Hb.
  { unfold bounded, canonical_mantissa. rewrite Hdm.
    unfold fexp, emin, prec, emax. apply andb_true_intro. split.
    - apply Z.eqb_eq. subst e. lia.
    - apply Z.leb_le. subst e. lia. }
  exists (S754_finite (M <? 0) m e). split; [exact Hb|].
  cbn [Zval]. rewrite Hm.
  replace (E + 1200) with ((53 - d) + (e + 1200)) by (subst e; lia).
  rewrite (pow2_split (53 - d) (e + 1200)) by (subst e; lia).
  destruct (Z.ltb_spec M 0); cbn [cond_Zopp]; nia.
Qed.

Lemma shl_align_val (m : positive) (e ez : Z) :
  ez <= e ->
  Z.pos (fst (shl_align m e ez)) = Z.pos m * 2 ^ (e - ez).
Proof.
  intros Hle. unfold shl_align.
  destruct (ez - e) as [|n|n] eqn:En; try lia; cbn [fst].
  - replace (e - ez) with 0 by lia. cbn. lia.
  - rewrite pos_iter_xO. f_equal. f_equal. lia.
Qed.

Lemma aligned_val (s : bool) (m : positive) (e ez : Z) :
  ez <= e -> -1200 <= ez ->
  cond_Zopp s (Z.pos (fst (shl_align m e ez))) * 2 ^ (ez + 1200)
  = Zval (S754_finite s m e).
Proof.
  intros Hle Hz. rewrite shl_align_val by exact Hle. cbn [Zval].
  replace (e + 1200) with ((e - ez) + (ez + 1200)) by lia.
  rewrite (pow2_split (e - ez) (ez + 1200)) by lia.
  destruct s; cbn [cond_Zopp]; lia.
Qed.

Lemma Zval_zero_iff (x : spec_float) : vfloat x -> (Zval x = 0 <-> x = S754_zero false).
Proof.
  intros Hx. split; [|now intros ->].
  intros Hv. apply Zval_inj; [exact Hx|reflexivity|exact Hv].
Qed.

Lemma fadd_exact (x y z : spec_float) :
  vfloat x -> vfloat y -> vfloat z ->
  Zval x + Zval y = Zval z ->
  fadd x y = z.
Proof.
  intros Hx Hy Hz Hv.
  destruct x as [sx| | |sx mx ex], y as [sy| | |sy my ey]; cbn in Hx, Hy;
    try contradiction; subst.
  - cbn. symmetry. now apply Zval_zero_iff.
  - cbn [fadd SFadd]. apply Zval_inj; [exact Hy|exact Hz|]. now rewrite <- Hv.
  - cbn [fadd SFadd]. apply Zval_inj; [exact Hx|exact Hz|]. rewrite <- Hv.
    cbn [Zval]. lia.
  - pose proof (bounded_emin mx ex Hx). pose proof (bounded_emin my ey Hy).
    unfold fadd, SFadd. fold (of_scaled
      (cond_Zopp sx (Z.pos (fst (shl_align mx ex (Z.min ex ey)))) +
       cond_Zopp sy (Z.pos (fst (shl_align my ey (Z.min ex ey))))) (Z.min ex ey)).
    set (ez := Z.min ex ey).
    assert (forall M, M * 2 ^ (ez + 1200) = Zval z -> of_scaled M ez = z) as Hof.
    { intros M HM. destruct z as [s| | |s m e]; cbn in Hz; try contradiction.
      - subst s. cbn in HM. pose proof (pow2_pos (ez + 1200) ltac:(lia)).
        assert (M = 0) as -> by nia. reflexivity.
      - apply of_scaled_exact; [exact Hz|subst ez; lia|]. now rewrite HM. }
    apply Hof. rewrite Z.mul_add_distr_r.
    rewrite !aligned_val by (subst ez; lia). exact Hv.
Qed.

Lemma fsub_exact (x y z : spec_float) :
  vfloat x -> vfloat y -> vfloat z ->
  Zval x - Zval y = Zval z ->
  fsub x y = z.
Proof.
  intros Hx Hy Hz Hv.
  destruct x as [sx| | |sx mx ex], y as [sy| | |sy my ey]; cbn in Hx, Hy;
    try contradiction; subst.
  - cbn. symmetry. now apply Zval_zero_iff.
  - cbn [fsub SFsub]. apply Zval_inj; [exact Hy|exact Hz|].
    rewrite <- Hv. cbn [Zval]. destruct sy; cbn [negb cond_Zopp]; lia.
  - cbn [fsub SFsub]. apply Zval_inj; [exact Hx|exact Hz|]. rewrite <- Hv.
    cbn [Zval]. lia.
  - pose proof (bounded_emin mx ex Hx). pose proof (bounded_emin my ey Hy).
    unfold fsub, SFsub. fold (of_scaled
      (cond_Zopp sx (Z.pos (fst (shl_align mx ex (Z.min ex ey)))) -
       cond_Zopp sy (Z.pos (fst (shl_align my ey (Z.min ex ey))))) (Z.min ex ey)).
    set (ez := Z.min ex ey).
    assert (forall M, M * 2 ^ (ez + 1200) = Zval z -> of_scaled M ez = z) as Hof.
    { intros M HM. destruct z as [s| | |s m e]; cbn in Hz; try contradiction.
      - subst s. cbn in HM. pose proof (pow2_pos (ez + 1200) ltac:(lia)).
        assert (M = 0) as -> by nia. reflexivity.
      - apply of_scaled_exact; [exact Hz|subst ez; lia|]. now rewrite HM. }
    apply Hof. rewrite Z.mul_sub_distr_r.
    rewrite !aligned_val by (subst ez; lia). exact Hv.
Qed.


Lemma float_same_eq (x y : spec_float) : float_same x y = true -> x = y.
Proof.
  destruct x as [s| s| |s m e], y as [s'|s'| |s' m' e']; cbn; try discriminate.
  - now intros ->%eqb_prop.
  - now intros ->%eqb_prop.
  - reflexivity.
  - intros [[H1 H2]%andb_prop H3]%andb_prop.
    apply eqb_prop in H1. apply Pos.eqb_eq in H2. apply Z.eqb_eq in H3.
    now subst.
Qed.

Lemma fraction_checked : forall_below 127 fraction_ok = true.
Proof. vm_compute. reflexivity. Qed.

Lemma microsecond_checked : forall_below 64 microsecond_ok = true.
Proof. vm_compute. reflexivity. Qed.

Lemma bounded_digits (m : positive) (e : Z) :
  bounded prec emax m e = true -> Z.pos m < 2 ^ 53.
Proof.
  intros Hb. destruct (fexp_canonical m e Hb) as [Hf He].
  pose proof (digits_bounds m) as [_ Hhi].
  unfold fexp, emin, prec, emax in Hf.
  assert (Z.pos (digits2_pos m) <= 53) by lia.
  assert (2 ^ Z.pos (digits2_pos m) <= 2 ^ 53) by (apply Z.pow_le_mono_r; lia).
  lia.
Qed.

Lemma trunc_X64 (x : spec_float) (X : Z) :
  vfloat x -> Zval x = X * 2 ^ 1194 -> trunc x = Some (Z.quot X 64).
Proof.
  intros Hx Hv. destruct x as [s| | |s m e]; cbn in Hx; try contradiction.
  - cbn in Hv. assert (X = 0) as -> by lia. reflexivity.
  - pose proof (bounded_emin m e Hx) as He. cbn [Zval] in Hv. cbn [trunc].
    f_equal.
    assert (cond_Zopp s (Z.pos m) * 2 ^ (e + 1200) =
            cond_Zopp s (Z.pos m * 2 ^ (e + 1200))) as Hs
      by (destruct s; cbn [cond_Zopp]; lia).
    rewrite Hs in Hv. clear Hs.
    assert (forall a b : Z, 0 <= a -> cond_Zopp s a = b ->
                            cond_Zopp s (a / 64) = Z.quot b 64) as Hq.
    { intros a b Ha <-. destruct s; cbn [cond_Zopp].
      - rewrite Z.quot_opp_l by lia. now rewrite Z.quot_div_nonneg by lia.
      - now rewrite Z.quot_div_nonneg by lia. }
    destruct (Z.leb_spec 0 e) as [H0|H0].
    + (* an integer *)
      assert (X = cond_Zopp s (Z.pos m * 2 ^ e * 64)) as ->.
      { apply (Z.mul_cancel_r _ _ (2 ^ 1194)); [lia|]. rewrite <- Hv.
        replace (e + 1200) with (e + 6 + 1194) by lia.
        rewrite (pow2_split (e + 6) 1194), (pow2_split e 6) by lia.
        destruct s; cbn [cond_Zopp]; lia. }
      pose proof (pow2_pos e H0).
      rewrite <- (Hq (Z.pos m * 2 ^ e * 64) _ ltac:(nia) eq_refl).
      now rewrite Z.div_mul by lia.
    + replace (Z.pos m / 2 ^ (- e)) with ((Z.pos m * 2 ^ (e + 1200)) / 2 ^ 1200).
      2:{ replace 1200 with ((- e) + (e + 1200)) at 2 by lia.
          rewrite (pow2_split (- e) (e + 1200)) by lia.
          apply Z.div_mul_cancel_r; pose proof (pow2_pos (e + 1200)); pose proof (pow2_pos (- e)); lia. }
      assert (exists a, 0 <= a /\ Z.pos m * 2 ^ (e + 1200) = a * 2 ^ 1194 /\
                        cond_Zopp s a = X) as (a & Ha & Ea & <-).
      { exists (Z.abs X). pose proof (pow2_pos (e + 1200) ltac:(lia)).
        destruct s; cbn [cond_Zopp] in Hv |- *; repeat split; nia. }
      rewrite Ea. rewrite <- (Hq a _ Ha eq_refl). f_equal.
      replace 1200 with (6 + 1194) by lia.
      rewrite (pow2_split 6 1194) by lia.
      now rewrite Z.div_mul_cancel_r by lia.
Qed.

Lemma quot_rem_64 (X : Z) :
  X = 64 * Z.quot X 64 + Z.rem X 64 /\
  -64 < Z.rem X 64 < 64 /\
  (0 <= X -> 0 <= Z.rem X 64) /\ (X <= 0 -> Z.rem X 64 <= 0).
Proof.
  split; [apply Z.quot_rem'|].
  pose proof (Z.quot_rem' X 64) as Hqr.
  destruct (Z.le_ge_cases 0 X) as [H|H].
  - pose proof (Z.rem_bound_pos X 64 H ltac:(lia)). lia.
  - pose proof (Z.rem_bound_pos (- X) 64 ltac:(lia) ltac:(lia)) as Hb.
    rewrite Z.rem_opp_l in Hb by lia. lia.
Qed.

Lemma quot_representable (x : spec_float) (X : Z) :
  vfloat x -> Zval x = X * 2 ^ 1194 -> representable (Z.quot X 64) 0.
Proof.
  intros Hx Hv. destruct (Z.lt_ge_cases (Z.abs X) (2 ^ 59)) as [Hs|Hl].
  - apply small_representable; [|lia].
    assert (Z.abs (Z.quot X 64) * 64 <= Z.abs X).
    { destruct (quot_rem_64 X) as (Hqr & Hr & Hpos & Hneg).
      remember (Z.quot X 64) as q. remember (Z.rem X 64) as r.
      destruct (Z.le_ge_cases 0 X) as [H|H];
        [specialize (Hpos H)|specialize (Hneg H)]; lia. }
    change (2 ^ 59) with (2 ^ 53 * 64) in Hs. lia.
  - destruct x as [s| | |s m e]; cbn in Hx; try contradiction.
    { cbn in Hv. assert (X = 0) by lia. subst X. cbn in Hl. lia. }
    pose proof (bounded_emin m e Hx) as He.
    pose proof (bounded_digits m e Hx) as Hm.
    cbn [Zval] in Hv.
    assert (0 < e) as He0.
    { destruct (Z.lt_ge_cases 0 e) as [|Hle]; [assumption|exfalso].
      assert (2 ^ (e + 1200) <= 2 ^ 1200) as Hp
        by (apply Z.pow_le_mono_r; lia).
      pose proof (pow2_pos (e + 1200) ltac:(lia)) as Hp0.
      assert (Z.abs (cond_Zopp s (Z.pos m) * 2 ^ (e + 1200)) < 2 ^ 53 * 2 ^ 1200)
        as Habs.
      { rewrite Z.abs_mul, (Z.abs_eq (2 ^ _)) by lia.
        assert (Z.abs (cond_Zopp s (Z.pos m)) = Z.pos m) as ->
          by (destruct s; cbn; lia).
        nia. }
      rewrite Hv, Z.abs_mul in Habs.
      rewrite (Z.abs_eq (2 ^ 1194)) in Habs by lia.
      change (2 ^ 53 * 2 ^ 1200) with (2 ^ 59 * 2 ^ 1194) in Habs. nia. }
    exists (S754_finite s m e). split; [exact Hx|]. cbn [Zval].
    assert (X = cond_Zopp s (Z.pos m) * 2 ^ e * 64) as ->.
    { apply (Z.mul_cancel_r _ _ (2 ^ 1194)); [lia|]. rewrite <- Hv.
      replace (e + 1200) with (e + 6 + 1194) by lia.
      rewrite (pow2_split (e + 6) 1194), (pow2_split e 6) by lia. lia. }
    rewrite Z.quot_mul by lia. cbn [Z.add].
    replace (e + 1200) with (e + 1200)%Z by lia.
    rewrite (pow2_split e 1200) by lia. change (0 + 1200) with 1200. lia.
Qed.

Lemma of_Z_spec (z : Z) :
  representable z 0 -> vfloat (of_Z z) /\ Zval (of_Z z) = z * 2 ^ 1200.
Proof.
  intros Hr. apply (of_scaled_representable z 0); [lia|exact Hr].
Qed.

Lemma of_scaled_small (M E : Z) :
  Z.abs M < 2 ^ 53 -> -1021 <= E <= 971 ->
  vfloat (of_scaled M E) /\ Zval (of_scaled M E) = M * 2 ^ (E + 1200).
Proof.
  intros HM HE. apply of_scaled_representable; [lia|].
  now apply small_representable.
Qed.

Lemma fraction_spec (j : Z) :
  -64 < j < 64 ->
  fleb (of_scaled j (-6)) (of_Z (-1)) || fleb f_1_0 (of_scaled j (-6)) = false /\
  round_to_long (fmul (of_scaled j (-6)) f_1_0e6) = Ok (15625 * j).
Proof.
  intros Hj.
  pose proof (forall_below_spec _ _ fraction_checked (j + 63) ltac:(lia)) as Hok.
  unfold fraction_ok in Hok. replace (j + 63 - 63) with j in Hok by lia.
  apply andb_prop in Hok as [H1 H2]. apply negb_true_iff in H1.
  split; [exact H1|].
  destruct (round_to_long _) as [us|]; [|discriminate].
  apply Z.eqb_eq in H2. now subst.
Qed.

Lemma microsecond_spec (j : Z) :
  0 <= j < 64 -> fdiv (of_Z (15625 * j)) f_1_0e6 = of_scaled j (-6).
Proof.
  intros Hj. apply float_same_eq.
  exact (forall_below_spec _ _ microsecond_checked j Hj).
Qed.

(** The constructor on a double whose 64-fold is the integer [X]. *)
Lemma datetime_from_timestamp_aligned (cls : pyclass) (x : spec_float) (X : Z) :
  vfloat x -> Zval x = X * 2 ^ 1194 ->
  datetime_from_timestamp cls x =
  if (Z.quot X 64 <? - 2 ^ 63) || (2 ^ 63 <=? Z.quot X 64)
  then Raise (ValueError "timestamp out of range for platform time_t")
  else datetime_from_timet_and_us cls (X / 64) (15625 * (X mod 64)).
Proof.
  intros Hx Hv. unfold datetime_from_timestamp, _PyTime_DoubleToTimet.
  rewrite (trunc_X64 x X Hx Hv).
  destruct ((Z.quot X 64 <? - 2 ^ 63) || (2 ^ 63 <=? Z.quot X 64)); [reflexivity|].
  destruct (of_Z_spec (Z.quot X 64) (quot_representable x X Hx Hv)) as [Ht Vt].
  assert (-64 < Z.rem X 64 < 64) as Hj by apply quot_rem_64.
  destruct (of_scaled_small (Z.rem X 64) (-6)) as [Hf Vf]; [lia|lia|].
  assert (fsub x (of_Z (Z.quot X 64)) = of_scaled (Z.rem X 64) (-6)) as Efs.
  { apply fsub_exact; [exact Hx|exact Ht|exact Hf|].
    rewrite Hv, Vt, Vf. pose proof (Z.quot_rem' X 64).
    change (2 ^ 1200) with (64 * 2 ^ 1194). change (-6 + 1200) with 1194. lia. }
  destruct (fraction_spec (Z.rem X 64) Hj) as [Hchk Hus].
  rewrite Efs, Hchk. cbn [mbind result_bind]. rewrite Efs, Hus.
  cbn [mbind result_bind].
  destruct (quot_rem_64 X) as (Hqr & _ & Hrpos & Hrneg).
  pose proof (Z.div_mod X 64 ltac:(lia)) as Hdm.
  pose proof (Z.mod_pos_bound X 64 ltac:(lia)) as Hmb.
  remember (Z.quot X 64) as q. remember (Z.rem X 64) as r.
  remember (X / 64) as d. remember (X mod 64) as m.
  destruct (Z.ltb_spec (15625 * r) 0) as [Hneg|Hpos].
  - destruct (Z.eqb_spec (15625 * r + 1000000) 1000000) as [E|_]; [lia|].
    assert (X < 0) by (destruct (Z.lt_ge_cases X 0); [assumption|];
                       specialize (Hrpos ltac:(lia)); lia).
    f_equal; lia.
  - destruct (Z.eqb_spec (15625 * r) 1000000) as [E|_]; [lia|].
    f_equal; lia.
Qed.


Lemma check_date_args_spec (y mo d : Z) :
  (check_date_args y mo d = Ok tt <->
   1 <= y <= 9999 /\ 1 <= mo <= 12 /\ 1 <= d <= days_in_month y mo) /\
  (is_raise (check_date_args y mo d) = true <->
   ~ (1 <= y <= 9999 /\ 1 <= mo <= 12 /\ 1 <= d <= days_in_month y mo)).
Proof.
  unfold check_date_args, MINYEAR, MAXYEAR.
  destruct (Z.ltb_spec y 1), (Z.ltb_spec 9999 y), (Z.ltb_spec mo 1),
    (Z.ltb_spec 12 mo), (Z.ltb_spec d 1), (Z.ltb_spec (days_in_month y mo) d);
    cbn; split; split; intros; try discriminate; try lia; try reflexivity.
Qed.

Lemma check_time_args_spec (h mi s us : Z) :
  (check_time_args h mi s us = Ok tt <->
   0 <= h <= 23 /\ 0 <= mi <= 59 /\ 0 <= s <= 59 /\ 0 <= us <= 999999) /\
  (is_raise (check_time_args h mi s us) = true <->
   ~ (0 <= h <= 23 /\ 0 <= mi <= 59 /\ 0 <= s <= 59 /\ 0 <= us <= 999999)).
Proof.
  unfold check_time_args.
  destruct (Z.ltb_spec h 0), (Z.ltb_spec 23 h), (Z.ltb_spec mi 0),
    (Z.ltb_spec 59 mi), (Z.ltb_spec s 0), (Z.ltb_spec 59 s),
    (Z.ltb_spec us 0), (Z.ltb_spec 999999 us);
    cbn; split; split; intros; try discriminate; try lia; try reflexivity.
Qed.

Lemma datetime_new_ok (cls : pyclass) (y mo d h mi s us : Z)
    (tz : option tzinfo) :
  valid_fields y mo d h mi s us ->
  datetime_new cls y mo d h mi s us tz = Ok (Datetime cls y mo d h mi s us tz).
Proof.
  intros (Hy & Hmo & Hd & Hh & Hmi & Hs & Hus). unfold datetime_new.
  rewrite (proj2 (proj1 (check_date_args_spec y mo d))) by tauto.
  cbn [mbind result_bind].
  rewrite (proj2 (proj1 (check_time_args_spec h mi s us))) by tauto.
  reflexivity.
Qed.

Lemma datetime_new_raises (cls : pyclass) (y mo d h mi s us : Z)
    (tz : option tzinfo) :
  ~ valid_fields y mo d h mi s us ->
  is_raise (datetime_new cls y mo d h mi s us tz) = true.
Proof.
  intros Hn. unfold datetime_new.
  destruct (check_date_args y mo d) as [[]|e] eqn:Ed; [|reflexivity].
  cbn [mbind result_bind].
  destruct (check_time_args h mi s us) as [[]|e] eqn:Et; [|reflexivity].
  exfalso. apply Hn.
  apply (proj1 (check_date_args_spec y mo d)) in Ed.
  apply (proj1 (check_time_args_spec h mi s us)) in Et.
  unfold valid_fields. tauto.
Qed.

Lemma datetime_new_inv (cls : pyclass) (y mo d h mi s us : Z)
    (tz : option tzinfo) (v : datetime) :
  datetime_new cls y mo d h mi s us tz = Ok v ->
  valid_fields y mo d h mi s us /\ v = Datetime cls y mo d h mi s us tz.
Proof.
  unfold datetime_new. intros E.
  destruct (check_date_args y mo d) as [[]|e] eqn:Ed; [|discriminate].
  cbn [mbind result_bind] in E.
  destruct (check_time_args h mi s us) as [[]|e] eqn:Et; [|discriminate].
  injection E as <-.
  apply (proj1 (check_date_args_spec y mo d)) in Ed.
  apply (proj1 (check_time_args_spec h mi s us)) in Et.
  unfold valid_fields. tauto.
Qed.

Lemma valid_fields_md (y mo d h mi s us : Z) :
  valid_fields y mo d h mi s us -> valid_md y mo d = true.
Proof. intros (_ & Hmo & Hd & _). apply valid_md_spec. tauto. Qed.

Lemma seconds_of_range (y mo d h mi s us : Z) :
  valid_fields y mo d h mi s us ->
  MIN_TIMET <= seconds_of y mo d h mi s < MAX_TIMET.
Proof.
  intros Hv. pose proof (valid_fields_md _ _ _ _ _ _ _ Hv) as Hmd.
  destruct Hv as (Hy & Hmo & Hd & Hh & Hmi & Hs & Hus).
  pose proof (gmtime_seconds_of y mo d h mi s Hmd Hh Hmi Hs) as Hg.
  apply gmtime_spec in Hg. now apply Hg.
Qed.

Lemma from_timet_ok (cls : pyclass) (T U : Z) :
  MIN_TIMET <= T < MAX_TIMET -> 0 <= U <= 999999 ->
  exists y mo d h mi s : Z,
    gmtime T = (y, mo, d, h, mi, s) /\
    valid_fields y mo d h mi s U /\
    seconds_of y mo d h mi s = T /\
    datetime_from_timet_and_us cls T U = Ok (Datetime cls y mo d h mi s U None).
Proof.
  intros HT HU. unfold datetime_from_timet_and_us.
  destruct (gmtime T) as [[[[[y mo] d] h] mi] s] eqn:Eg.
  pose proof (gmtime_spec _ _ _ _ _ _ _ Eg) as (Hmd & Hh & Hmi & Hs & Hsec & Hy).
  apply valid_md_spec in Hmd.
  assert (valid_fields y mo d h mi s U) as Hv by (unfold valid_fields; tauto).
  exists y, mo, d, h, mi, s. repeat split; try tauto.
  destruct (Z.ltb_spec 59 s); [lia|]. now apply datetime_new_ok.
Qed.

Lemma from_timet_inv (cls : pyclass) (T U : Z) (v : datetime) :
  datetime_from_timet_and_us cls T U = Ok v ->
  MIN_TIMET <= T < MAX_TIMET /\ 0 <= U <= 999999.
Proof.
  unfold datetime_from_timet_and_us.
  destruct (gmtime T) as [[[[[y mo] d] h] mi] s] eqn:Eg.
  pose proof (gmtime_spec _ _ _ _ _ _ _ Eg) as (Hmd & Hh & Hmi & Hs & Hsec & Hy).
  destruct (Z.ltb_spec 59 s); [lia|].
  intros [Hv _]%datetime_new_inv. unfold valid_fields in Hv. tauto.
Qed.

Lemma timegm_timetuple (v : datetime) :
  valid_datetime v ->
  timegm (timetuple v) =
  Ok (seconds_of (year v) (month v) (day v) (hour v) (minute v) (second v)).
Proof.
  intros (Hy & Hmo & Hd & _). unfold timegm, timetuple, date_toordinal.
  cbn [tm_year tm_mon tm_mday tm_hour tm_min tm_sec].
  pose proof (days_in_month_ge_28 (year v) (month v) Hmo).
  rewrite (proj2 (proj1 (check_date_args_spec (year v) (month v) 1))) by lia.
  cbn [mbind result_bind]. unfold seconds_of, ymd_to_ord. f_equal. lia.
Qed.

Lemma timestamp_aligned (v : datetime) (j : Z) :
  valid_datetime v -> 0 <= j < 64 -> microsecond v = 15625 * j ->
  timestamp v =
  Ok (of_scaled
        (64 * seconds_of (year v) (month v) (day v) (hour v) (minute v) (second v) + j)
        (-6)).
Proof.
  intros Hv Hj Hus. unfold timestamp. rewrite timegm_timetuple by exact Hv.
  cbn [mbind result_bind].
  pose proof (seconds_of_range _ _ _ _ _ _ _ Hv) as Hr.
  set (secs := seconds_of _ _ _ _ _ _) in *.
  unfold MIN_TIMET, MAX_TIMET in Hr.
  destruct (of_scaled_small secs 0) as [Hs Vs]; [lia|lia|].
  destruct (of_scaled_small j (-6)) as [Hf Vf]; [lia|lia|].
  destruct (of_scaled_small (64 * secs + j) (-6)) as [Hz Vz]; [lia|lia|].
  unfold float_of_int, as_double. fold (of_scaled secs 0).
  assert (is_finite (of_Z secs) = true) as ->.
  { unfold of_Z. destruct (of_scaled secs 0); cbn in Hs; try contradiction;
      reflexivity. }
  cbn [mbind result_bind]. rewrite Hus, microsecond_spec by exact Hj.
  f_equal. apply fadd_exact; [exact Hs|exact Hf|exact Hz|].
  unfold of_Z. rewrite Vs, Vf, Vz. change (0 + 1200) with 1200. change (-6 + 1200) with 1194.
  change (2 ^ 1200) with (64 * 2 ^ 1194). lia.
Qed.

Lemma gcd_pow2_15625 (k : Z) : 0 <= k -> Z.gcd (2 ^ k) 15625 = 1.
Proof.
  intros Hk. rewrite Z.gcd_comm.
  apply (Z.coprime_pow_r 15625 2 k Hk). reflexivity.
Qed.

Lemma aligned_X64 (x : spec_float) :
  valid_binary prec emax x = true ->
  microsecond_aligned x = true ->
  Zval x = X64 x * 2 ^ 1194.
Proof.
  intros Hvb Ha. destruct x as [s| | |s m e]; try discriminate; [reflexivity|].
  cbn [valid_binary] in Hvb. pose proof (bounded_emin m e Hvb) as He.
  cbn [Zval X64]. cbn [microsecond_aligned] in Ha.
  destruct (Z.leb_spec (-6) e) as [H6|H6].
  - replace (e + 1200) with (e + 6 + 1194) by lia.
    rewrite (pow2_split (e + 6) 1194) by lia.
    destruct s; cbn [cond_Zopp]; lia.
  - destruct (Z.leb_spec 0 e) as [|_]; [lia|]. apply Z.eqb_eq in Ha.
    pose proof (pow2_pos (- e) ltac:(lia)) as Pe.
    pose proof (pow2_pos (- 6 - e) ltac:(lia)) as Pk.
    apply Z.mod_divide in Ha; [|lia].
    assert (2 ^ (- e) = 2 ^ (- 6 - e) * 64) as E64.
    { replace (- e) with (- 6 - e + 6) by lia.
      now rewrite (pow2_split (- 6 - e) 6) by lia. }
    assert ((2 ^ (- 6 - e) | Z.pos m)) as [c Hc].
    { apply (Z.mul_divide_cancel_r _ _ 64); [lia|]. rewrite <- E64.
      apply (Z.gauss _ 15625); [|apply gcd_pow2_15625; lia].
      replace (15625 * (Z.pos m * 64)) with (Z.pos m * 1000000) by lia.
      exact Ha. }
    rewrite Hc, Z.div_mul by lia.
    replace 1194 with ((- 6 - e) + (e + 1200)) by lia.
    rewrite (pow2_split (- 6 - e) (e + 1200)) by lia.
    destruct s; cbn [cond_Zopp]; lia.
Qed.

Lemma feqb_refl (x : spec_float) : is_finite x = true -> feqb x x = true.
Proof.
  destruct x as [s| | |s m e]; try discriminate; intros _; [reflexivity|].
  unfold feqb, SFeqb, SFcompare.
  destruct s; rewrite Z.compare_refl, Pos.compare_cont_refl; reflexivity.
Qed.

Lemma new_number_unfold (x : spec_float) :
  __new__ (Args1 (ANumber (PyFloat x))) =
  (dt ← datetime_from_timestamp datetime_datetime x;
   datetime_new DateTime_class (year dt) (month dt) (day dt)
                (hour dt) (minute dt) (second dt) (microsecond dt) None).
Proof. reflexivity. Qed.

(** the constructor on a double whose 64-fold is the integer [X], in range *)
Lemma new_aligned (x : spec_float) (X : Z) :
  vfloat x -> Zval x = X * 2 ^ 1194 ->
  MIN_TIMET <= X / 64 < MAX_TIMET ->
  exists y mo d h mi s : Z,
    gmtime (X / 64) = (y, mo, d, h, mi, s) /\
    valid_fields y mo d h mi s (15625 * (X mod 64)) /\
    seconds_of y mo d h mi s = X / 64 /\
    __new__ (Args1 (ANumber (PyFloat x))) =
    Ok (Datetime DateTime_class y mo d h mi s (15625 * (X mod 64)) None).
Proof.
  intros Hx Hv Hr. rewrite new_number_unfold.
  rewrite (datetime_from_timestamp_aligned _ x X Hx Hv).
  pose proof (Z.mod_pos_bound X 64 ltac:(lia)) as Hm.
  destruct (quot_rem_64 X) as (Hqr & Hrb & _ & _).
  pose proof (Z.div_mod X 64 ltac:(lia)) as Hdm.
  unfold MIN_TIMET, MAX_TIMET in Hr.
  assert ((Z.quot X 64 <? - 2 ^ 63) || (2 ^ 63 <=? Z.quot X 64) = false) as ->.
  { apply orb_false_intro; [apply Z.ltb_ge|apply Z.leb_gt]; lia. }
  destruct (from_timet_ok datetime_datetime (X / 64) (15625 * (X mod 64)))
    as (y & mo & d & h & mi & s & Eg & Hvf & Hsec & ->);
    [unfold MIN_TIMET, MAX_TIMET; lia|lia|].
  exists y, mo, d, h, mi, s.
  split; [exact Eg|split; [exact Hvf|split; [exact Hsec|]]].
  cbn [mbind result_bind year month day hour minute second microsecond].
  now apply datetime_new_ok.
Qed.

Lemma new_aligned_inv (x : spec_float) (X : Z) (v : datetime) :
  vfloat x -> Zval x = X * 2 ^ 1194 ->
  __new__ (Args1 (ANumber (PyFloat x))) = Ok v ->
  MIN_TIMET <= X / 64 < MAX_TIMET.
Proof.
  intros Hx Hv. rewrite new_number_unfold.
  rewrite (datetime_from_timestamp_aligned _ x X Hx Hv).
  destruct ((Z.quot X 64 <? - 2 ^ 63) || (2 ^ 63 <=? Z.quot X 64));
    [discriminate|].
  destruct (datetime_from_timet_and_us _ _ _) as [dt|e] eqn:E; [|discriminate].
  intros _. now apply from_timet_inv in E.
Qed.

(** C4: for every double [x] whose fractional part is a whole number of
    microseconds and from which the constructor builds a value, [timestamp]
    of that value returns a double equal to [x]. *)
Theorem timestamp_of_epoch_float (x : spec_float) (v : datetime)
    (Hvalid : valid_binary prec emax x = true)
    (Haligned : microsecond_aligned x = true)
    (Hnew : __new__ (Args1 (ANumber (PyFloat x))) = Ok v) :
  exists y : spec_float, timestamp v = Ok y /\ feqb y x = true.
Proof.
  pose proof (aligned_X64 x Hvalid Haligned) as Hv.
  destruct x as [s| | |s m e]; try discriminate.
  - (* a zero *)
    exists (S754_zero false).
    assert (v = Datetime DateTime_class 1970 1 1 0 0 0 0 None) as ->
      by (destruct s; vm_compute in Hnew; now injection Hnew as <-).
    split; [vm_compute; reflexivity|reflexivity].
  - cbn [valid_binary] in Hvalid.
    assert (vfloat (S754_finite s m e)) as Hx by exact Hvalid.
    set (x := S754_finite s m e) in *. set (X := X64 x) in *.
    pose proof (new_aligned_inv x X v Hx Hv Hnew) as Hr.
    destruct (new_aligned x X Hx Hv Hr)
      as (y & mo & d & h & mi & s' & Eg & Hvf & Hsec & Enew).
    rewrite Enew in Hnew. injection Hnew as <-.
    exists x. split; [|now apply feqb_refl].
    pose proof (Z.mod_pos_bound X 64 ltac:(lia)) as Hm.
    rewrite (timestamp_aligned _ (X mod 64)); [|exact Hvf|exact Hm|reflexivity].
    cbn [year month day hour minute second]. rewrite Hsec. f_equal.
    replace (64 * (X / 64) + X mod 64) with X
      by (pose proof (Z.div_mod X 64 ltac:(lia)); lia).
    apply of_scaled_exact; [exact Hvalid|lia|]. exact Hv.
Qed.


(** * Properties of [DateTime] *)

Lemma timestamp_of_epoch_float_witness :
  let x := of_decimal 12405616325 1 in
  let v := Datetime DateTime_class 2009 4 24 8 27 12 500000 None in
  valid_binary prec emax x = true /\
  microsecond_aligned x = true /\
  __new__ (Args1 (ANumber (PyFloat x))) = Ok v /\
  exists y : spec_float, timestamp v = Ok y /\ feqb y x = true.
Proof.
  intros x v.
  assert (valid_binary prec emax x = true) as H1 by (vm_compute; reflexivity).
  assert (microsecond_aligned x = true) as H2 by (vm_compute; reflexivity).
  assert (__new__ (Args1 (ANumber (PyFloat x))) = Ok v) as H3
    by (vm_compute; reflexivity).
  split; [exact H1|]. split; [exact H2|]. split; [exact H3|].
  exact (timestamp_of_epoch_float x v H1 H2 H3).
Defined.

(** The hypothesis of C4 is about the double itself: the double nearest to
    the decimal 1.003691 is not a whole number of microseconds, and the
    conversion there and back yields the neighbouring double. *)
Remark timestamp_of_nearest_double :
  let x := of_decimal 1003691 6 in
  microsecond_aligned x = false /\
  exists (v : datetime) (y : spec_float),
    __new__ (Args1 (ANumber (PyFloat x))) = Ok v /\
    microsecond v = 3691 /\
    timestamp v = Ok y /\ feqb y x = false.
Proof.
  split; [vm_compute; reflexivity|].
  eexists _, _. split; [vm_compute; reflexivity|].
  split; [reflexivity|]. split; [vm_compute; reflexivity|].
  vm_compute. reflexivity.
Qed.



(** C8: the constructor takes the double 0.0 to 1970-01-01T00:00:00.000000
    and the double 86400.0 to 1970-01-02T00:00:00.000000. *)
Theorem new_epoch_0_and_86400 :
  __new__ (Args1 (ANumber (PyFloat f_0_0))) =
    Ok (Datetime DateTime_class 1970 1 1 0 0 0 0 None) /\
  __new__ (Args1 (ANumber (PyFloat f_86400_0))) =
    Ok (Datetime DateTime_class 1970 1 2 0 0 0 0 None).
Proof. split; vm_compute; reflexivity. Qed.

(** C10: the constructor applied to an existing datetime object, with or
    without time zone, returns a [DateTime] with the same year, month, day,
    hour, minute, second and microsecond and with no time zone; the offset
    of the time zone is not applied to the fields. *)
Theorem new_from_datetime_drops_tzinfo (dt : datetime)
    (Hvalid : valid_datetime dt) :
  exists v : datetime,
    __new__ (Args1 (ADatetime dt)) = Ok v /\
    fields v = fields dt /\
    dt_tzinfo v = None /\
    dt_class v = DateTime_class.
Proof.
  eexists. split; [cbn [__new__]; now apply datetime_new_ok|].
  repeat split.
Qed.

Lemma new_from_datetime_drops_tzinfo_witness :
  let dt := Datetime datetime_datetime 2009 5 24 8 28 12 5001
                     (Some (TzInfo 120 "CEST")) in
  valid_datetime dt /\
  exists v : datetime,
    __new__ (Args1 (ADatetime dt)) = Ok v /\
    fields v = (2009, 5, 24, 8, 28, 12, 5001) /\
    dt_tzinfo v = None /\
    dt_class v = DateTime_class.
Proof.
  intros dt.
  assert (valid_datetime dt) as Hv
    by (unfold valid_datetime, valid_fields; cbn; lia).
  split; [exact Hv|].
  exact (new_from_datetime_drops_tzinfo dt Hv).
Defined.

(** * More properties of the registry *)

(** X1: a list is among the returned descriptors exactly when it is the name
    of one of the three candidate formats followed by the three functions
    that the import of that format bound; nothing else is ever returned. *)
Theorem discover_descriptor_contents (env : backends) (verbose : bool)
    (s0 : state) :
  exists ds : list pyobj,
    (getFormatsAndMethods env verbose s0).1 = Ok (OList ds) /\
    forall d : pyobj,
      d ∈ ds <->
      exists (name : string) (i r w : pyfun),
        name ∈ candidate_names /\
        backend_of env name = Present i r w /\
        d = OList [OStr name; OFun i; OFun r; OFun w].
Proof.
  rewrite getFormatsAndMethods_run. eexists; split; [reflexivity|].
  intros d. unfold bound_descriptors, candidates, candidate_names.
  split.
  - destruct env as [[im rm wm|tm|em] [ig rg wg|tg|eg] [iw rw ww|tw|ew]];
      cbn; rewrite ?elem_of_cons, ?elem_of_nil; intros Hin;
      repeat (destruct Hin as [->|Hin]);
      try contradiction;
      first [ exists "MSEED"; do 3 eexists;
              split; [by apply (bool_decide_unpack _)|split; reflexivity]
            | exists "GSE2"; do 3 eexists;
              split; [by apply (bool_decide_unpack _)|split; reflexivity]
            | exists "WAV"; do 3 eexists;
              split; [by apply (bool_decide_unpack _)|split; reflexivity] ].
  - intros (name & i & r & w & Hn & Hb & ->).
    rewrite !elem_of_cons, elem_of_nil in Hn.
    destruct Hn as [->|[->|[->|[]]]];
      destruct env as [bm bg bw]; cbn in Hb;
      destruct bm, bg, bw; try discriminate Hb;
      injection Hb as -> -> ->; cbn;
      rewrite ?elem_of_cons, ?elem_of_nil; tauto.
Qed.

(** * More properties of [Stats] *)

Import StatsViews.

Lemma do_writes_run (self : addr) (ws : list write) (h : heap)
    (m : gmap string value) :
  inst_dict h !! self = Some self ->
  dicts h !! self = Some m ->
  Forall admissible ws ->
  do_writes self ws h =
  (Ok tt, Heap (<[self := foldl apply_write m ws]> (dicts h)) (inst_dict h)).
Proof.
  intros Hi Hm Hws. revert h m Hi Hm.
  induction Hws as [|w ws Hw Hws IH]; intros h m Hi Hm.
  - cbn. rewrite insert_id by exact Hm. now destruct h.
  - cbn [do_writes foldl].
    assert (do_write self w h =
            (Ok tt, Heap (<[self := apply_write m w]> (dicts h)) (inst_dict h)))
      as E.
    { destruct w as [k v|k v]; cbn in Hw |- *.
      - now apply setattr_run.
      - now apply setitem_run. }
    erewrite bind_ok; [|exact E].
    rewrite (IH _ (apply_write m w)); cbn [dicts inst_dict];
      [|exact Hi|apply lookup_insert_eq].
    now rewrite insert_insert_eq.
Qed.

Lemma foldl_apply_write_other (m : gmap string value) (ws : list write)
    (k : string) :
  Forall (fun w => write_key w <> k) ws ->
  foldl apply_write m ws !! k = m !! k.
Proof.
  intros Hws. revert m. induction Hws as [|w ws Hw Hws IH]; intros m; [done|].
  cbn [foldl]. rewrite IH. unfold apply_write. now rewrite lookup_insert_ne.
Qed.

(** X2: any sequence of attribute and keyed writes to a [Stats] object
    succeeds and leaves a [Stats] object; the last write wins for its key,
    keys that were not written keep their value, and no other object on the
    heap is touched. *)
Theorem Stats_writes_compose (h : heap) (self : addr) (ws : list write)
    (w : write)
    (Hs : is_stats h self) (Hws : Forall admissible ws) (Hw : admissible w) :
  exists h' : heap,
    do_writes self (ws ++ [w]) h = (Ok tt, h') /\
    is_stats h' self /\
    (getitem self (write_key w) h').1 = Ok (write_value w) /\
    (forall k : string,
        Forall (fun w' => write_key w' <> k) (ws ++ [w]) ->
        (getitem self k h').1 = (getitem self k h).1) /\
    (forall a : addr, a <> self -> dicts h' !! a = dicts h !! a).
Proof.
  destruct Hs as [Hi [m Hm]].
  assert (Forall admissible (ws ++ [w])) as Hall
    by (apply Forall_app; split; [exact Hws|now constructor]).
  eexists. split; [now apply (do_writes_run self _ h m)|].
  split; [|split; [|split]].
  - split; cbn [dicts inst_dict]; [exact Hi|]. rewrite lookup_insert_eq. eauto.
  - erewrite getitem_run; [|apply lookup_insert_eq]. cbn [fst].
    rewrite foldl_app. cbn [foldl]. unfold apply_write at 1.
    now rewrite lookup_insert_eq.
  - intros k Hk.
    erewrite getitem_run; [|apply lookup_insert_eq].
    rewrite (getitem_run h self m k Hm). cbn [fst].
    now rewrite foldl_apply_write_other.
  - intros a Ha. cbn [dicts]. now rewrite lookup_insert_ne.
Qed.

Lemma Stats_writes_compose_witness :
  let h := (Stats [] ∅ empty_heap).2 in
  let ws := [ByAttribute "station" (VStr "ROTZ"); ByKey "station" (VStr "FUR")] in
  let w := ByAttribute "station" (VStr "WET") in
  is_stats h 1%nat /\ Forall admissible ws /\ admissible w /\
  exists h' : heap,
    do_writes 1%nat (ws ++ [w]) h = (Ok tt, h') /\
    (getitem 1%nat "station" h').1 = Ok (VStr "WET").
Proof.
  intros h ws w.
  assert (is_stats h 1%nat) as Hs
    by exact (Stats_is_stats empty_heap [] ∅ (le_S 0 0 (le_n 0))).
  assert (Forall admissible ws) as Hws by (repeat constructor).
  assert (admissible w) as Hw by reflexivity.
  split; [exact Hs|]. split; [exact Hws|]. split; [exact Hw|].
  destruct (Stats_writes_compose h 1%nat ws w Hs Hws Hw)
    as (h' & E & _ & G & _).
  exists h'. split; [exact E|exact G].
Defined.



(** X4: after construction the keys of a [Stats] object are, without
    repetition, the nine documented fields together with the keys of the
    initial mapping. *)
Theorem Stats_keys_after_init (h : heap) (args : list init_arg)
    (kwargs : gmap string value) (Hlen : (length args <= 1)%nat) :
  exists (self : addr) (h' : heap) (ks : list string),
    Stats args kwargs h = (Ok self, h') /\
    keys self h' = (Ok ks, h') /\
    NoDup ks /\
    forall k : string,
      k ∈ ks <-> (k ∈ defaults.*1 \/ is_Some (initial_items args kwargs !! k)).
Proof.
  eexists _, _, _. split; [now apply Stats_run|].
  unfold keys. cbn [dicts]. rewrite lookup_insert_eq.
  split; [reflexivity|]. split; [apply NoDup_fst_map_to_list|].
  intros k. rewrite list_elem_of_fmap.
  assert (is_Some (constructed_items args kwargs !! k) <->
          (k ∈ defaults.*1 \/ is_Some (initial_items args kwargs !! k))) as Hiff.
  { rewrite constructed_items_lookup. unfold default_of.
    destruct (decide (k ∈ defaults.*1)) as [Hin|Hout].
    - assert (is_Some ((list_to_map defaults : gmap string value) !! k))
        as [d Hd].
      { apply not_eq_None_Some. intros Hn.
        apply not_elem_of_list_to_map in Hn. contradiction. }
      rewrite Hd. split; eauto.
    - rewrite (not_elem_of_list_to_map_1 _ _ Hout). tauto. }
  rewrite <- Hiff. split.
  - intros ([k' v] & -> & Hin). apply elem_of_map_to_list in Hin. eauto.
  - intros [v Hv]. exists (k, v). split; [reflexivity|].
    now apply elem_of_map_to_list.
Qed.

Lemma Stats_keys_after_init_witness :
  (length [FromPairs [("azimuth", VInt 90)]] <= 1)%nat /\
  exists (self : addr) (h' : heap) (ks : list string),
    Stats [FromPairs [("azimuth", VInt 90)]] ∅ empty_heap = (Ok self, h') /\
    keys self h' = (Ok ks, h') /\
    "azimuth" ∈ ks /\ "endtime" ∈ ks /\ "latitude" ∉ ks.
Proof.
  assert ((length [FromPairs [("azimuth", VInt 90)]] <= 1)%nat) as Hl
    by (cbn; lia).
  split; [exact Hl|].
  destruct (Stats_keys_after_init empty_heap
              [FromPairs [("azimuth", VInt 90)]] ∅ Hl)
    as (self & h' & ks & E & Ek & _ & Hks).
  exists self, h', ks. split; [exact E|]. split; [exact Ek|].
  split; [|split].
  - apply Hks. right. vm_compute. eauto.
  - apply Hks. left. now apply (bool_decide_unpack _).
  - intros [Hin|[v Hv]]%Hks.
    + exact (bool_decide_unpack ("latitude" ∉ defaults.*1) I Hin).
    + vm_compute in Hv. discriminate.
Defined.



Lemma dict_methods_not_descriptors (k : string) :
  k ∈ dict_methods -> is_data_descriptor k = false.
Proof.
  intros Hin. unfold is_data_descriptor. apply bool_decide_eq_false.
  intros Hd. revert Hin Hd. unfold dict_methods, data_descriptors.
  rewrite !elem_of_cons, !elem_of_nil. intros Hin Hd.
  destruct Hd as [->|[->|[->|[]]]];
    repeat (destruct Hin as [Hin|Hin]; [discriminate|]); exact Hin.
Qed.

(** X6: on a [Stats] object a key stored under the name of a [dict] method
    hides the method: before the write the attribute is the method, after a
    keyed or an attribute write it is the stored value. *)
Theorem Stats_key_shadows_method (h : heap) (self : addr) (k : string)
    (v : value)
    (Hs : is_stats h self) (Hmeth : k ∈ dict_methods)
    (Habsent : (getitem self k h).1 = Raise (KeyError k)) :
  getattr self k h = (Ok (VMethod k), h) /\
  exists h' : heap,
    setitem self k v h = (Ok tt, h') /\
    getattr self k h' = (Ok v, h') /\
    exists h'' : heap,
      setattr self k v h = (Ok tt, h'') /\
      getattr self k h'' = (Ok v, h'').
Proof.
  pose proof (dict_methods_not_descriptors k Hmeth) as Hk.
  destruct Hs as [Hi [m Hm]].
  rewrite (getitem_run h self m k Hm) in Habsent. cbn [fst] in Habsent.
  destruct (m !! k) as [v0|] eqn:Ek; [discriminate|].
  split.
  - rewrite (getattr_run h self m k Hi Hm Hk), Ek.
    now rewrite bool_decide_eq_true_2.
  - eexists. split; [now apply setitem_run with (m := m)|].
    split.
    + erewrite getattr_run; [|exact Hi|apply lookup_insert_eq|exact Hk].
      now rewrite lookup_insert_eq.
    + eexists. split; [now apply setattr_run with (m := m)|].
      erewrite getattr_run; [|exact Hi|apply lookup_insert_eq|exact Hk].
      now rewrite lookup_insert_eq.
Qed.

Lemma Stats_key_shadows_method_witness :
  let h := (Stats [] ∅ empty_heap).2 in
  is_stats h 1%nat /\ "keys" ∈ dict_methods /\
  (getitem 1%nat "keys" h).1 = Raise (KeyError "keys") /\
  getattr 1%nat "keys" h = (Ok (VMethod "keys"), h) /\
  exists h' : heap,
    setitem 1%nat "keys" (VInt 5) h = (Ok tt, h') /\
    getattr 1%nat "keys" h' = (Ok (VInt 5), h').
Proof.
  intros h.
  assert (is_stats h 1%nat) as Hs
    by exact (Stats_is_stats empty_heap [] ∅ (le_S 0 0 (le_n 0))).
  assert ("keys" ∈ dict_methods) as Hm by now apply (bool_decide_unpack _).
  assert ((getitem 1%nat "keys" h).1 = Raise (KeyError "keys")) as Ha
    by (vm_compute; reflexivity).
  split; [exact Hs|]. split; [exact Hm|]. split; [exact Ha|].
  destruct (Stats_key_shadows_method h 1%nat "keys" (VInt 5) Hs Hm Ha)
    as (G & h' & E1 & G1 & _).
  split; [exact G|]. exists h'. split; [exact E1|exact G1].
Defined.

(** * More properties of [DateTime] *)

Lemma datetime_new_raises_ValueError (cls : pyclass) (y mo d h mi s us : Z)
    (tz : option tzinfo) (e : pyexc) :
  datetime_new cls y mo d h mi s us tz = Raise e ->
  ~ valid_fields y mo d h mi s us /\ exc_class e = "ValueError".
Proof.
  intros E. split.
  - intros Hv. rewrite (datetime_new_ok cls _ _ _ _ _ _ _ tz Hv) in E.
    discriminate.
  - revert E. unfold datetime_new, check_date_args, check_time_args.
    repeat match goal with
           | |- context [if ?b then _ else _] => destruct b
           end; cbn; intros [= <-]; reflexivity.
Qed.








Lemma from_timet_raises_ValueError (cls : pyclass) (T U : Z) (e : pyexc) :
  datetime_from_timet_and_us cls T U = Raise e -> exc_class e = "ValueError".
Proof.
  unfold datetime_from_timet_and_us.
  destruct (gmtime T) as [[[[[y mo] d] h] mi] s].
  intros E. now apply datetime_new_raises_ValueError in E.
Qed.

(** The constructor on a double that is [X / 64]: what it builds, and when
    it refuses. *)
Lemma new_aligned_cases (x : spec_float) (X : Z) :
  vfloat x -> Zval x = X * 2 ^ 1194 ->
  match __new__ (Args1 (ANumber (PyFloat x))) with
  | Ok v =>
      MIN_TIMET <= X / 64 < MAX_TIMET /\
      gmtime (X / 64) =
        (year v, month v, day v, hour v, minute v, second v) /\
      microsecond v = 15625 * (X mod 64) /\
      valid_datetime v
  | Raise e =>
      ~ (MIN_TIMET <= X / 64 < MAX_TIMET) /\ exc_class e = "ValueError"
  end.
Proof.
  intros Hx Hv.
  destruct (Z.le_gt_cases MIN_TIMET (X / 64)) as [Hlo|Hlo];
    [destruct (Z.lt_ge_cases (X / 64) MAX_TIMET) as [Hhi|Hhi]|].
  - destruct (new_aligned x X Hx Hv (conj Hlo Hhi))
      as (y & mo & d & h & mi & s & Eg & Hvf & Hsec & ->).
    cbn [year month day hour minute second microsecond].
    repeat split; try assumption; apply Hvf.
  - destruct (__new__ _) as [v|e] eqn:E.
    + apply (new_aligned_inv x X v Hx Hv) in E. lia.
    + split; [lia|]. revert E. rewrite new_number_unfold.
      rewrite (datetime_from_timestamp_aligned _ x X Hx Hv).
      destruct (_ || _); [now intros [= <-]|].
      destruct (datetime_from_timet_and_us _ _ _) as [dt|e'] eqn:E'.
      * apply from_timet_inv in E'. lia.
      * intros [= <-]. now apply from_timet_raises_ValueError in E'.
  - destruct (__new__ _) as [v|e] eqn:E.
    + apply (new_aligned_inv x X v Hx Hv) in E. lia.
    + split; [lia|]. revert E. rewrite new_number_unfold.
      rewrite (datetime_from_timestamp_aligned _ x X Hx Hv).
      destruct (_ || _); [now intros [= <-]|].
      destruct (datetime_from_timet_and_us _ _ _) as [dt|e'] eqn:E'.
      * apply from_timet_inv in E'. lia.
      * intros [= <-]. now apply from_timet_raises_ValueError in E'.
Qed.

(** X10: on a float that is a whole number of 64ths of a second the
    constructor either builds the value whose calendar fields are [gmtime]
    of the whole seconds and whose microseconds are the remaining 64ths, or
    raises [ValueError]; it raises exactly when the seconds fall outside the
    years 1 to 9999. *)
Theorem new_of_aligned_float (x : spec_float)
    (Hvalid : valid_binary prec emax x = true)
    (Haligned : microsecond_aligned x = true) :
  match __new__ (Args1 (ANumber (PyFloat x))) with
  | Ok v =>
      MIN_TIMET * 64 <= X64 x < MAX_TIMET * 64 /\
      gmtime (X64 x / 64) =
        (year v, month v, day v, hour v, minute v, second v) /\
      microsecond v = 15625 * (X64 x mod 64)
  | Raise e =>
      ~ (MIN_TIMET * 64 <= X64 x < MAX_TIMET * 64) /\
      exc_class e = "ValueError"
  end.
Proof.
  pose proof (aligned_X64 x Hvalid Haligned) as Hv.
  assert (forall X, (MIN_TIMET * 64 <= X < MAX_TIMET * 64) <->
                    (MIN_TIMET <= X / 64 < MAX_TIMET)) as Hiff.
  { intros X. pose proof (Z.div_mod X 64 ltac:(lia)).
    pose proof (Z.mod_pos_bound X 64 ltac:(lia)).
    unfold MIN_TIMET, MAX_TIMET. lia. }
  destruct x as [s| | |s m e]; try discriminate.
  - assert (__new__ (Args1 (ANumber (PyFloat (S754_zero s)))) =
            Ok (Datetime DateTime_class 1970 1 1 0 0 0 0 None)) as ->
      by (destruct s; vm_compute; reflexivity).
    cbn [X64 year month day hour minute second microsecond].
    split; [unfold MIN_TIMET, MAX_TIMET; lia|].
    split; [vm_compute; reflexivity|reflexivity].
  - pose proof (new_aligned_cases (S754_finite s m e) _ Hvalid Hv) as Hc.
    destruct (__new__ _) as [v|e'].
    + destruct Hc as (Hr & Eg & Hus & _). rewrite Hiff. tauto.
    + rewrite Hiff. exact Hc.
Qed.

Lemma new_of_aligned_float_witness :
  let x := of_scaled (-32) (-6) in
  valid_binary prec emax x = true /\ microsecond_aligned x = true /\
  match __new__ (Args1 (ANumber (PyFloat x))) with
  | Ok v =>
      MIN_TIMET * 64 <= X64 x < MAX_TIMET * 64 /\
      gmtime (X64 x / 64) =
        (year v, month v, day v, hour v, minute v, second v) /\
      microsecond v = 15625 * (X64 x mod 64)
  | Raise e =>
      ~ (MIN_TIMET * 64 <= X64 x < MAX_TIMET * 64) /\
      exc_class e = "ValueError"
  end.
Proof.
  intros x.
  assert (valid_binary prec emax x = true) as H1 by (vm_compute; reflexivity).
  assert (microsecond_aligned x = true) as H2 by (vm_compute; reflexivity).
  split; [exact H1|]. split; [exact H2|].
  exact (new_of_aligned_float x H1 H2).
Defined.

(** X11: on an integer number of seconds the constructor builds the value
    with the calendar fields of [gmtime], zero microseconds and a timestamp
    that is the integer again, or raises [ValueError]; it raises exactly
    when the seconds fall outside the years 1 to 9999. *)
Theorem new_of_int (n : Z) (Hn : Z.abs n < 2 ^ 53) :
  match __new__ (Args1 (ANumber (PyInt n))) with
  | Ok v =>
      MIN_TIMET <= n < MAX_TIMET /\
      gmtime n = (year v, month v, day v, hour v, minute v, second v) /\
      microsecond v = 0 /\
      timestamp v = Ok (of_Z n)
  | Raise e =>
      ~ (MIN_TIMET <= n < MAX_TIMET) /\ exc_class e = "ValueError"
  end.
Proof.
  destruct (of_scaled_small n 0) as [Hx Vx]; [exact Hn|lia|].
  fold (of_Z n) in Hx, Vx.
  assert (__new__ (Args1 (ANumber (PyInt n))) =
          __new__ (Args1 (ANumber (PyFloat (of_Z n))))) as ->.
  { cbn [__new__]. unfold utcfromtimestamp, as_double.
    assert (is_finite (of_Z n) = true) as ->; [|reflexivity].
    destruct (of_Z n); cbn in Hx; try contradiction; reflexivity. }
  assert (Zval (of_Z n) = (64 * n) * 2 ^ 1194) as Hv.
  { rewrite Vx. change (2 ^ (0 + 1200)) with (64 * 2 ^ 1194). lia. }
  pose proof (new_aligned_cases (of_Z n) (64 * n) Hx Hv) as Hc.
  assert (64 * n / 64 = n) as Ediv
    by (rewrite Z.mul_comm; apply Z.div_mul; lia).
  assert ((64 * n) mod 64 = 0) as Emod
    by (rewrite Z.mul_comm; apply Z.mod_mul; lia).
  rewrite Ediv, Emod in Hc.
  destruct (__new__ _) as [v|e]; [|exact Hc].
  destruct Hc as (Hr & Eg & Hus & Hvd).
  split; [exact Hr|]. split; [exact Eg|]. split; [exact Hus|].
  rewrite (timestamp_aligned v 0 Hvd ltac:(lia) Hus). f_equal.
  apply gmtime_spec in Eg as (_ & _ & _ & _ & -> & _).
  unfold MIN_TIMET, MAX_TIMET in Hr.
  destruct (of_scaled_small (64 * n + 0) (-6)) as [Hy Vy]; [lia|lia|].
  apply Zval_inj; [exact Hy|exact Hx|]. rewrite Vy, Vx.
  change (2 ^ (0 + 1200)) with (64 * 2 ^ 1194).
  change (-6 + 1200) with 1194. lia.
Qed.

Lemma new_of_int_witness :
  Z.abs 86400 < 2 ^ 53 /\
  match __new__ (Args1 (ANumber (PyInt 86400))) with
  | Ok v =>
      MIN_TIMET <= 86400 < MAX_TIMET /\
      gmtime 86400 = (year v, month v, day v, hour v, minute v, second v) /\
      microsecond v = 0 /\
      timestamp v = Ok (of_Z 86400)
  | Raise e =>
      ~ (MIN_TIMET <= 86400 < MAX_TIMET) /\ exc_class e = "ValueError"
  end.
Proof.
  assert (Z.abs 86400 < 2 ^ 53) as H by reflexivity.
  split; [exact H|]. exact (new_of_int 86400 H).
Defined.

(** X12: on a valid value the seconds that [timestamp] gets from
    [timegm(self.timetuple())] lie within the years 1 to 9999 and [gmtime]
    maps them back to the calendar fields of the value. *)
Theorem timegm_timetuple_gmtime (v : datetime) (Hvalid : valid_datetime v) :
  exists t : Z,
    timegm (timetuple v) = Ok t /\
    MIN_TIMET <= t < MAX_TIMET /\
    gmtime t = (year v, month v, day v, hour v, minute v, second v).
Proof.
  eexists. split; [now apply timegm_timetuple|].
  split; [now apply (seconds_of_range _ _ _ _ _ _ (microsecond v))|].
  destruct Hvalid as (Hy & Hmo & Hd & Hh & Hmi & Hs & Hus).
  apply gmtime_seconds_of; try assumption. apply valid_md_spec. tauto.
Qed.

Lemma timegm_timetuple_gmtime_witness :
  let v := Datetime DateTime_class 2009 4 24 8 27 12 5000 None in
  valid_datetime v /\
  exists t : Z,
    timegm (timetuple v) = Ok t /\
    MIN_TIMET <= t < MAX_TIMET /\
    gmtime t = (2009, 4, 24, 8, 27, 12).
Proof.
  intros v.
  assert (valid_datetime v) as Hv
    by (unfold valid_datetime, valid_fields; cbn; lia).
  split; [exact Hv|]. exact (timegm_timetuple_gmtime v Hv).
Defined.

(** * Properties of [scoreatpercentile] *)

Import Percentile.

Lemma bounded_normal (m : positive) (e : Z) :
  bounded prec emax m e = true -> -1074 < e -> 2 ^ 52 <= Z.pos m.
Proof.
  intros Hb He. destruct (fexp_canonical m e Hb) as [Hf _].
  pose proof (digits_bounds m) as [Hlo _].
  unfold fexp, emin, prec, emax in Hf.
  assert (Z.pos (digits2_pos m) = 53) as Hd by lia.
  rewrite Hd in Hlo. exact Hlo.
Qed.

Lemma Zval_abs (s : bool) (m : positive) (e : Z) :
  Z.abs (Zval (S754_finite s m e)) = Z.pos m * 2 ^ (e + 1200).
Proof.
  cbn [Zval]. rewrite Z.abs_mul.
  assert (Z.abs (cond_Zopp s (Z.pos m)) = Z.pos m) as -> by (destruct s; cbn; lia).
  destruct (Z.le_gt_cases 0 (e + 1200)) as [H|H].
  - rewrite Z.abs_eq; [reflexivity|]. pose proof (pow2_pos _ H). lia.
  - rewrite Z.pow_neg_r by lia. reflexivity.
Qed.

(** a product that is a double is computed without rounding *)
Lemma fmul_exact (x y z : spec_float) :
  vfloat x -> vfloat y -> vfloat z ->
  Zval x <> 0 -> 2 ^ 1100 <= Z.abs (Zval y) ->
  Zval x * Zval y = Zval z * 2 ^ 1200 ->
  fmul x y = z.
Proof.
  intros Hx Hy Hz Hx0 Hy0 Hv.
  destruct x as [sx| | |sx mx ex]; cbn in Hx; try contradiction;
    try (cbn in Hx0; lia).
  destruct y as [sy| | |sy my ey]; cbn in Hy; try contradiction;
    try (cbn in Hy0; lia).
  pose proof (bounded_emin mx ex Hx) as Hex.
  pose proof (bounded_emin my ey Hy) as Hey.
  pose proof (bounded_digits my ey Hy) as Hmy.
  pose proof (pow2_pos (ex + 1200) ltac:(lia)) as Px.
  pose proof (pow2_pos (ey + 1200) ltac:(lia)) as Py.
  rewrite Zval_abs in Hy0.
  assert (-1074 < ey) as Hn.
  { destruct (Z.lt_ge_cases (-1074) ey) as [|Hle]; [assumption|exfalso].
    assert (ey = -1074) as -> by lia.
    change (2 ^ (-1074 + 1200)) with (2 ^ 126) in Hy0.
    change (2 ^ 1100) with (2 ^ 53 * 2 ^ 921 * 2 ^ 126) in Hy0.
    assert (0 < 2 ^ 126) by (apply pow2_pos; lia).
    assert (0 < 2 ^ 921) by (apply pow2_pos; lia). nia. }
  pose proof (bounded_normal my ey Hy Hn) as Hny.
  destruct z as [sz| | |sz mz ez]; cbn in Hz; try contradiction.
  { cbn [Zval] in Hv. exfalso.
    assert (cond_Zopp sx (Z.pos mx) <> 0) by (destruct sx; cbn; lia).
    assert (cond_Zopp sy (Z.pos my) <> 0) by (destruct sy; cbn; lia). nia. }
  pose proof (bounded_emin mz ez Hz) as Hez.
  pose proof (bounded_digits mz ez Hz) as Hmz.
  pose proof (pow2_pos (ez + 1200) ltac:(lia)) as Pz.
  cbn [Zval] in Hv.
  assert (sz = xorb sx sy /\
          Z.pos mx * Z.pos my * (2 ^ (ex + 1200) * 2 ^ (ey + 1200))
          = Z.pos mz * (2 ^ (ez + 1200) * 2 ^ 1200)) as [-> Hm].
  { assert (0 < 2 ^ 1200) by (apply pow2_pos; lia).
    assert (0 < Z.pos mx * Z.pos my * (2 ^ (ex + 1200) * 2 ^ (ey + 1200))) by nia.
    assert (0 < Z.pos mz * (2 ^ (ez + 1200) * 2 ^ 1200)) by nia.
    destruct sx, sy, sz; cbn [cond_Zopp xorb] in Hv |- *; split;
      try reflexivity; try lia. }
  rewrite <- (pow2_split (ex + 1200) (ey + 1200)) in Hm by lia.
  rewrite <- (pow2_split (ez + 1200) 1200) in Hm by lia.
  assert (ex + ey <= ez) as Hle.
  { destruct (Z.le_gt_cases (ex + ey) ez) as [|Hgt]; [assumption|exfalso].
    replace (ex + 1200 + (ey + 1200)) with ((ex + ey - ez) + (ez + 1200 + 1200))
      in Hm by lia.
    rewrite (pow2_split (ex + ey - ez) (ez + 1200 + 1200)) in Hm by lia.
    pose proof (pow2_pos (ez + 1200 + 1200) ltac:(lia)).
    assert (Z.pos mx * Z.pos my * 2 ^ (ex + ey - ez) = Z.pos mz) as Hq
      by (apply (Z.mul_cancel_r _ _ (2 ^ (ez + 1200 + 1200))); lia).
    assert (2 ^ 1 <= 2 ^ (ex + ey - ez)) by (apply Z.pow_le_mono_r; lia).
    change (2 ^ 1) with 2 in *. change (2 ^ 53) with (2 * 2 ^ 52) in Hmz. nia. }
  replace (ez + 1200 + 1200) with ((ez - ex - ey) + (ex + 1200 + (ey + 1200)))
    in Hm by lia.
  rewrite (pow2_split (ez - ex - ey) (ex + 1200 + (ey + 1200))) in Hm by lia.
  pose proof (pow2_pos (ex + 1200 + (ey + 1200)) ltac:(lia)).
  assert (Z.pos (mx * my) = Z.pos mz * 2 ^ (ez - ex - ey)) as Hq.
  { rewrite Pos2Z.inj_mul.
    apply (Z.mul_cancel_r _ _ (2 ^ (ex + 1200 + (ey + 1200)))); lia. }
  unfold fmul, SFmul.
  destruct (ez - ex - ey) as [|n|n] eqn:En; try lia.
  - rewrite Z.pow_0_r, Z.mul_1_r in Hq. injection Hq as ->.
    replace (ex + ey) with ez by lia. now apply round_aux_canonical.
  - assert (mx * my = Pos.iter xO mz n)%positive as ->.
    { apply Pos2Z.inj. now rewrite pos_iter_xO. }
    replace (ex + ey) with (ez - Z.pos n) by lia.
    now apply round_aux_shifted.
Qed.

Lemma vfloat_finite (x : spec_float) : vfloat x -> is_finite x = true.
Proof. destruct x; cbn; try contradiction; reflexivity. Qed.

Lemma fmul_exact_nonneg (x y z : spec_float) :
  vfloat x -> vfloat y -> vfloat z ->
  0 <= Zval x -> Zval y = 0 \/ 2 ^ 1100 <= Zval y ->
  Zval x * Zval y = Zval z * 2 ^ 1200 ->
  fmul x y = z.
Proof.
  intros Hx Hy Hz Hx0 Hy0 Hv.
  assert (0 < 2 ^ 1200) as P by (apply pow2_pos; lia).
  assert (0 < 2 ^ 1100) as P' by (apply pow2_pos; lia).
  destruct (Z.eq_dec (Zval x) 0) as [Ex|Nx].
  - apply Zval_zero_iff in Ex; [subst x|exact Hx].
    assert (z = S754_zero false) as ->.
    { apply Zval_zero_iff; [exact Hz|]. cbn [Zval] in Hv. lia. }
    destruct y as [sy| | |sy my ey]; cbn in Hy; try contradiction.
    + now subst sy.
    + destruct sy; [|reflexivity]. exfalso.
      pose proof (bounded_emin my ey Hy).
      pose proof (pow2_pos (ey + 1200) ltac:(lia)).
      cbn [Zval cond_Zopp] in Hy0. nia.
  - destruct Hy0 as [Ey|Hy0].
    + apply Zval_zero_iff in Ey; [subst y|exact Hy].
      assert (z = S754_zero false) as ->.
      { apply Zval_zero_iff; [exact Hz|]. cbn [Zval] in Hv. lia. }
      destruct x as [sx| | |sx mx ex]; cbn in Hx; try contradiction.
      destruct sx; [|reflexivity]. exfalso.
      pose proof (bounded_emin mx ex Hx).
      pose proof (pow2_pos (ex + 1200) ltac:(lia)).
      cbn [Zval cond_Zopp] in Hx0. nia.
    + apply fmul_exact; try assumption. lia.
Qed.

(** ** Indexing *)

Lemma list_getitem_nil (i : Z) :
  list_getitem [] i = Raise (IndexError "list index out of range").
Proof.
  unfold list_getitem. change (Z.of_nat (length [])) with 0.
  destruct (i <? 0) eqn:Ei.
  - rewrite Z.add_0_r, Ei. reflexivity.
  - rewrite Ei. destruct (0 <=? i) eqn:Ej; [reflexivity|]. lia.
Qed.

Lemma list_getitem_nonneg (values : list Z) (i : nat) (v : Z) :
  values !! i = Some v -> list_getitem values (Z.of_nat i) = Ok v.
Proof.
  intros Hv. pose proof (lookup_lt_Some _ _ _ Hv) as Hlt.
  unfold list_getitem.
  destruct (Z.of_nat i <? 0) eqn:Ei; [lia|]. rewrite Ei.
  destruct (Z.of_nat (length values) <=? Z.of_nat i) eqn:Ej; [lia|].
  cbn [orb]. now rewrite Nat2Z.id, Hv.
Qed.

Lemma list_getitem_negative (values : list Z) (i : nat) (v : Z) :
  (0 < i <= length values)%nat ->
  values !! (length values - i)%nat = Some v ->
  list_getitem values (- Z.of_nat i) = Ok v.
Proof.
  intros Hi Hv. unfold list_getitem.
  destruct (- Z.of_nat i <? 0) eqn:Ei; [|lia].
  destruct (- Z.of_nat i + Z.of_nat (length values) <? 0) eqn:Ej; [lia|].
  destruct (Z.of_nat (length values) <=? - Z.of_nat i + Z.of_nat (length values))
    eqn:Ek; [lia|].
  cbn [orb].
  replace (Z.to_nat (- Z.of_nat i + Z.of_nat (length values)))
    with (length values - i)%nat by lia.
  now rewrite Hv.
Qed.

Lemma list_getitem_out_of_range (values : list Z) (i : Z) :
  Z.of_nat (length values) <= i ->
  list_getitem values i = Raise (IndexError "list index out of range").
Proof.
  intros Hi. unfold list_getitem.
  destruct (i <? 0) eqn:Ei; [lia|]. rewrite Ei.
  destruct (Z.of_nat (length values) <=? i) eqn:Ej; [reflexivity|lia].
Qed.

(** ** Floats that are a whole number of quarters *)

Lemma fmod_1_spec (s : bool) (m : positive) (e : Z) :
  bounded prec emax m e = true -> -1021 <= e ->
  exists q : Z,
    trunc (S754_finite s m e) = Some q /\
    ((Zval (S754_finite s m e) = q * 2 ^ 1200 /\
      fmod_1 (S754_finite s m e) = S754_zero s) \/
     (vfloat (fmod_1 (S754_finite s m e)) /\
      Zval (fmod_1 (S754_finite s m e)) = Zval (S754_finite s m e) - q * 2 ^ 1200 /\
      Zval (S754_finite s m e) <> q * 2 ^ 1200)).
Proof.
  intros Hb He. pose proof (bounded_emin m e Hb) as He'.
  pose proof (bounded_digits m e Hb) as Hm.
  cbn [trunc fmod_1 Zval]. eexists. split; [reflexivity|].
  destruct (Z.leb_spec 0 e) as [H0|H0].
  - left. split; [|reflexivity].
    rewrite (pow2_split e 1200) by lia. destruct s; cbn [cond_Zopp]; lia.
  - set (D := 2 ^ (- e)).
    assert (0 < D) as PD by (apply pow2_pos; lia).
    pose proof (Z.div_mod (Z.pos m) D ltac:(lia)) as Hdm.
    pose proof (Z.mod_pos_bound (Z.pos m) D PD) as Hr.
    assert (D * 2 ^ (e + 1200) = 2 ^ 1200) as HD.
    { unfold D. rewrite <- (pow2_split (- e) (e + 1200)) by lia. f_equal. lia. }
    pose proof (pow2_pos (e + 1200) ltac:(lia)) as Pe.
    assert (Z.pos m mod D <= Z.pos m) as Hrm by (apply Z.mod_le; lia).
    set (r := Z.pos m mod D) in *. set (k := Z.pos m / D) in *.
    assert (cond_Zopp s (Z.pos m) * 2 ^ (e + 1200) - cond_Zopp s k * 2 ^ 1200
            = cond_Zopp s r * 2 ^ (e + 1200)) as Hv.
    { rewrite <- HD. destruct s; cbn [cond_Zopp]; nia. }
    destruct (Z.eq_dec r 0) as [E0|N0].
    + left. rewrite E0 in *. split; [|reflexivity].
      destruct s; cbn [cond_Zopp] in Hv |- *; lia.
    + right.
      assert (match r with
              | 0 => S754_zero s
              | Z.pos p => of_scaled (cond_Zopp s (Z.pos p)) e
              | Z.neg p => of_scaled (cond_Zopp s (Z.neg p)) e
              end = of_scaled (cond_Zopp s r) e) as ->
        by (destruct r; [lia|reflexivity|reflexivity]).
      destruct (of_scaled_small (cond_Zopp s r) e) as [Hz Hzv]; [|lia|].
      { destruct s; cbn [cond_Zopp]; lia. }
      split; [exact Hz|]. rewrite Hzv, Hv. split; [reflexivity|].
      intros Hc. rewrite Hc, Z.sub_diag in Hv. symmetry in Hv.
      apply Z.mul_eq_0 in Hv. destruct s; cbn [cond_Zopp] in Hv; lia.
Qed.

Lemma quot_rem_4 (J : Z) :
  J = 4 * Z.quot J 4 + Z.rem J 4 /\ -4 < Z.rem J 4 < 4.
Proof.
  split; [apply Z.quot_rem'|].
  destruct (Z.le_ge_cases 0 J) as [H|H].
  - pose proof (Z.rem_bound_pos J 4 H ltac:(lia)). lia.
  - pose proof (Z.rem_bound_pos (- J) 4 ltac:(lia) ltac:(lia)) as Hb.
    rewrite Z.rem_opp_l in Hb by lia. lia.
Qed.

Lemma quarter_trunc (x : spec_float) (J : Z) :
  vfloat x -> Zval x = J * 2 ^ 1198 -> trunc x = Some (Z.quot J 4).
Proof.
  intros Hx Hv. rewrite (trunc_X64 x (16 * J) Hx).
  - f_equal. change 64 with (16 * 4). apply Z.quot_mul_cancel_l; lia.
  - rewrite Hv. change (2 ^ 1198) with (16 * 2 ^ 1194). lia.
Qed.

Lemma quarter_fmod (x : spec_float) (J : Z) :
  vfloat x -> Z.abs J < 2 ^ 53 -> Zval x = J * 2 ^ 1198 ->
  if Z.rem J 4 =? 0 then exists s, fmod_1 x = S754_zero s
  else fmod_1 x = of_scaled (Z.rem J 4) (-2).
Proof.
  intros Hx HJ Hv. pose proof (quarter_trunc x J Hx Hv) as Ht.
  destruct (quot_rem_4 J) as [Hqr Hr].
  destruct x as [s| | |s m e]; cbn in Hx; try contradiction.
  { cbn [Zval] in Hv. assert (J = 0) as -> by lia. now exists s. }
  pose proof (bounded_emin m e Hx) as He.
  pose proof (bounded_digits m e Hx) as Hm.
  assert (-1021 <= e) as He'.
  { destruct (Z.le_gt_cases (-1021) e) as [|Hgt]; [assumption|exfalso].
    pose proof (Zval_abs s m e) as Ha. rewrite Hv in Ha.
    rewrite Z.abs_mul, (Z.abs_eq (2 ^ 1198)) in Ha by lia.
    assert (2 ^ (e + 1200) <= 2 ^ 179) by (apply Z.pow_le_mono_r; lia).
    pose proof (pow2_pos (e + 1200) ltac:(lia)).
    assert (J <> 0).
    { intros ->. cbn [Zval] in Hv. rewrite Z.mul_0_l in Hv.
      apply Z.mul_eq_0 in Hv. destruct Hv as [Hv|Hv]; [|lia].
      destruct s; cbn [cond_Zopp] in Hv; lia. }
    change (2 ^ 1198) with (2 ^ 53 * 2 ^ 966 * 2 ^ 179) in Ha.
    assert (0 < 2 ^ 966) by (apply pow2_pos; lia).
    assert (0 < 2 ^ 179) by (apply pow2_pos; lia). nia. }
  destruct (fmod_1_spec s m e Hx He') as (q & Hq & Hcases).
  rewrite Ht in Hq. injection Hq as <-.
  assert (Zval (S754_finite s m e) - Z.quot J 4 * 2 ^ 1200
          = Z.rem J 4 * 2 ^ 1198) as Hd.
  { rewrite Hv. change (2 ^ 1200) with (4 * 2 ^ 1198). lia. }
  assert (0 < 2 ^ 1198) as P by (apply pow2_pos; lia).
  destruct Hcases as [[Hz ->]|(Hvf & Hzv & Hne)].
  - assert (Z.rem J 4 = 0) as -> by lia. now exists s.
  - destruct (Z.eqb_spec (Z.rem J 4) 0) as [E0|N0]; [exfalso; lia|].
    destruct (of_scaled_small (Z.rem J 4) (-2)) as [Hz' Hzv']; [lia|lia|].
    apply Zval_inj; [exact Hvf|exact Hz'|].
    rewrite Hzv, Hzv', Hd. reflexivity.
Qed.

Lemma quarter_mod (x : spec_float) (J : Z) :
  vfloat x -> Z.abs J < 2 ^ 53 -> Zval x = J * 2 ^ 1198 ->
  feqb (float_mod_1 x) (of_Z 0) = (J mod 4 =? 0) /\
  (J mod 4 <> 0 -> float_mod_1 x = of_scaled (J mod 4) (-2)).
Proof.
  intros Hx HJ Hv. pose proof (quarter_fmod x J Hx HJ Hv) as Hf.
  destruct (quot_rem_4 J) as [Hqr Hr].
  assert (J mod 4 = (Z.rem J 4) mod 4) as Hm.
  { rewrite Hqr at 1. rewrite Z.add_comm, Z.mul_comm. apply Z.mod_add. lia. }
  rewrite Hm. unfold float_mod_1.
  destruct (Z.eqb_spec (Z.rem J 4) 0) as [E0|N0].
  - destruct Hf as [s ->]. rewrite E0. destruct s; split; try reflexivity;
      intros Hc; now elim Hc.
  - rewrite Hf.
    assert (Z.rem J 4 = -3 \/ Z.rem J 4 = -2 \/ Z.rem J 4 = -1 \/
            Z.rem J 4 = 1 \/ Z.rem J 4 = 2 \/ Z.rem J 4 = 3)
      as [E | [E | [E | [E | [E | E]]]]] by lia;
      rewrite E; split; intros; vm_compute; reflexivity.
Qed.

(** ** The index of a percentile *)

Lemma index_spec (q : spec_float) (Q K : Z) :
  vfloat q -> Zval q = Q * 2 ^ 1198 -> Z.abs Q <= 8 -> 0 <= K < 2 ^ 49 ->
  0 <= Q \/ 1 <= K ->
  as_double (PyInt K) = Ok (of_Z K) /\
  int_of_float (fmul q (of_Z K)) = Ok (Z.quot (Q * K) 4) /\
  feqb (float_mod_1 (fmul q (of_Z K))) (of_Z 0) = ((Q * K) mod 4 =? 0) /\
  ((Q * K) mod 4 <> 0 ->
   float_mod_1 (fmul q (of_Z K)) = of_scaled ((Q * K) mod 4) (-2)).
Proof.
  intros Hq Hqv HQ HK Hsign.
  assert (2 ^ 53 = 16 * 2 ^ 49) as E53 by reflexivity.
  assert (0 < 2 ^ 49) as P49 by (apply pow2_pos; lia).
  destruct (of_scaled_small K 0) as [Hn Hnv]; [lia|lia|].
  fold (of_Z K) in Hn, Hnv. change (0 + 1200) with 1200 in Hnv.
  assert (Z.abs (Q * K) < 2 ^ 53) as HJ by (rewrite Z.abs_mul; nia).
  destruct (of_scaled_small (Q * K) (-2)) as [Hz Hzv]; [exact HJ|lia|].
  change (-2 + 1200) with 1198 in Hzv.
  assert (0 < 2 ^ 1198) as P by (apply pow2_pos; lia).
  assert (2 ^ 1200 = 2 ^ 1100 * 2 ^ 100) as E1200 by reflexivity.
  assert (0 < 2 ^ 1100) as P' by (apply pow2_pos; lia).
  assert (0 < 2 ^ 100) as P'' by (apply pow2_pos; lia).
  assert (fmul q (of_Z K) = of_scaled (Q * K) (-2)) as ->.
  { destruct (Z.le_gt_cases 0 Q) as [H0|H0].
    - apply fmul_exact_nonneg; try assumption.
      + rewrite Hqv. nia.
      + rewrite Hnv. destruct (Z.eq_dec K 0) as [->|]; [left; lia|right; nia].
      + rewrite Hqv, Hnv, Hzv. lia.
    - apply fmul_exact; try assumption.
      + rewrite Hqv. nia.
      + rewrite Hnv, Z.abs_mul, !Z.abs_eq by lia. nia.
      + rewrite Hqv, Hnv, Hzv. lia. }
  split.
  { unfold as_double. now rewrite (vfloat_finite _ Hn). }
  split.
  { unfold int_of_float. rewrite (quarter_trunc _ (Q * K) Hz Hzv).
    destruct (of_scaled (Q * K) (-2)); cbn in Hz; try contradiction; reflexivity. }
  apply quarter_mod; assumption.
Qed.

(** [a + (b - a) * fraction] is exact on a fraction of quarters *)
Lemma interpolate_quarters (va vb r : Z) :
  Z.abs va < 2 ^ 50 -> Z.abs vb < 2 ^ 50 -> 1 <= r <= 3 ->
  _interpolate va vb (of_scaled r (-2))
  = Ok (of_scaled ((4 - r) * va + r * vb) (-2)).
Proof.
  intros Ha Hb Hr.
  assert (2 ^ 53 = 8 * 2 ^ 50) as E53 by reflexivity.
  assert (0 < 2 ^ 50) as P50 by (apply pow2_pos; lia).
  assert (0 < 2 ^ 1198) as P by (apply pow2_pos; lia).
  assert (2 ^ 1200 = 4 * 2 ^ 1198) as E1200 by reflexivity.
  assert (2 ^ 1198 = 2 ^ 1100 * 2 ^ 98) as E1198 by reflexivity.
  assert (0 < 2 ^ 1100) as P' by (apply pow2_pos; lia).
  assert (0 < 2 ^ 98) as P'' by (apply pow2_pos; lia).
  destruct (of_scaled_small (vb - va) 0) as [Hd Hdv]; [lia|lia|].
  destruct (of_scaled_small va 0) as [Hx Hxv]; [lia|lia|].
  destruct (of_scaled_small r (-2)) as [Hf Hfv]; [lia|lia|].
  destruct (of_scaled_small ((vb - va) * r) (-2)) as [Hp Hpv]; [nia|lia|].
  destruct (of_scaled_small ((4 - r) * va + r * vb) (-2)) as [Hz Hzv]; [nia|lia|].
  fold (of_Z (vb - va)) in Hd, Hdv. fold (of_Z va) in Hx, Hxv.
  change (0 + 1200) with 1200 in *. change (-2 + 1200) with 1198 in *.
  unfold _interpolate, as_double.
  rewrite (vfloat_finite _ Hd), (vfloat_finite _ Hx). cbn.
  assert (fmul (of_Z (vb - va)) (of_scaled r (-2))
          = of_scaled ((vb - va) * r) (-2)) as ->.
  { destruct (Z.eq_dec (vb - va) 0) as [E0|N0].
    - apply fmul_exact_nonneg; try assumption.
      + rewrite Hdv, E0. lia.
      + right. rewrite Hfv. nia.
      + rewrite Hdv, Hfv, Hpv, E0. lia.
    - apply fmul_exact; try assumption.
      + rewrite Hdv. nia.
      + rewrite Hfv, Z.abs_mul, !Z.abs_eq by lia. nia.
      + rewrite Hdv, Hfv, Hpv. lia. }
  f_equal. apply fadd_exact; try assumption.
  rewrite Hxv, Hpv, Hzv. lia.
Qed.

Lemma fdiv_quarters (Q : Z) :
  -8 <= Q <= 8 -> fdiv (of_Z (25 * Q)) (of_Z 100) = of_scaled Q (-2).
Proof.
  intros HQ.
  assert (exists n : nat, Q = Z.of_nat n - 8 /\ (n <= 16)%nat) as (n & -> & Hn)
    by (exists (Z.to_nat (Q + 8)); lia).
  do 17 (destruct n as [|n]; [vm_compute; reflexivity|]). lia.
Qed.

Lemma sorted_length (a : list Z) : length (sorted a) = length a.
Proof. apply Permutation_length, merge_sort_Permutation. Qed.

Lemma sorted_lookup_le (l : list Z) (i j : nat) (x y : Z) :
  StronglySorted Z.le l -> l !! i = Some x -> l !! j = Some y ->
  (i <= j)%nat -> x <= y.
Proof.
  intros Hs. revert i j. induction Hs as [|z l Hs IH Hall]; intros i j Hi Hj Hle.
  - discriminate.
  - destruct i as [|i], j as [|j]; cbn in Hi, Hj.
    + injection Hi as <-. injection Hj as <-. lia.
    + injection Hi as <-. rewrite Forall_forall in Hall.
      apply Hall. now apply list_elem_of_lookup_2 in Hj.
    + lia.
    + apply (IH i j); [assumption..|lia].
Qed.

(** With the default [limit] the list of values is the sample, sorted or as
    given. *)
Lemma scoreatpercentile_no_limit (a : list Z) (per : pynumber) (sort : bool) :
  scoreatpercentile a per [] sort =
  (let values := if sort then sorted a else a in
   per' ← as_double per;
   n1 ← as_double (PyInt (Z.of_nat (length values) - 1));
   let idx := fmul (fdiv per' (of_Z 100)) n1 in
   if feqb (float_mod_1 idx) (of_Z 0) then
     i ← int_of_float idx;
     v ← list_getitem values i;
     Ok (PyInt v)
   else
     i ← int_of_float idx;
     va ← list_getitem values i;
     i' ← int_of_float idx;
     vb ← list_getitem values (i' + 1);
     x ← _interpolate va vb (float_mod_1 idx);
     Ok (PyFloat x)).
Proof. destruct sort; reflexivity. Qed.

(** The run of [scoreatpercentile] at a percentage that is a multiple of 25:
    the index is computed without rounding. *)
Lemma score_run (a : list Z) (per : pynumber) (sort : bool) (Q : Z) :
  let values := if sort then sorted a else a in
  let J := Q * (Z.of_nat (length a) - 1) in
  as_double per = Ok (of_Z (25 * Q)) -> -8 <= Q <= 8 ->
  (0 < length a)%nat -> Z.of_nat (length a) <= 2 ^ 49 ->
  0 <= Q \/ (2 <= length a)%nat ->
  scoreatpercentile a per [] sort =
  if J mod 4 =? 0 then
    v ← list_getitem values (Z.quot J 4); Ok (PyInt v)
  else
    va ← list_getitem values (Z.quot J 4);
    vb ← list_getitem values (Z.quot J 4 + 1);
    x ← _interpolate va vb (of_scaled (J mod 4) (-2));
    Ok (PyFloat x).
Proof.
  intros values J Hper HQ Hlen0 Hlen Hsign.
  assert (length values = length a) as Hl
    by (subst values; destruct sort; [apply sorted_length|reflexivity]).
  destruct (of_scaled_small Q (-2)) as [Hq Hqv];
    [change (2 ^ 53) with 9007199254740992; lia|lia|].
  change (-2 + 1200) with 1198 in Hqv.
  destruct (index_spec (of_scaled Q (-2)) Q (Z.of_nat (length a) - 1) Hq Hqv)
    as (Hn & Hi & Hm & Hf); [lia|lia|lia|].
  fold J in Hi, Hm, Hf.
  rewrite scoreatpercentile_no_limit. cbn zeta. fold values. rewrite Hl, Hper.
  cbn [mbind result_bind]. rewrite Hn. cbn [mbind result_bind].
  rewrite fdiv_quarters by exact HQ. rewrite Hm, Hi.
  cbn [mbind result_bind].
  destruct (Z.eqb_spec (J mod 4) 0) as [E0|N0]; [reflexivity|].
  rewrite (Hf N0). reflexivity.
Qed.

Lemma lookup_below (l : list Z) (i : nat) :
  (i < length l)%nat -> exists v, l !! i = Some v.
Proof. intros Hi. now apply lookup_lt_is_Some_2. Qed.

Lemma sorted_strongly (a : list Z) : StronglySorted Z.le (sorted a).
Proof. apply StronglySorted_merge_sort; apply _. Qed.

Lemma sorted_elem_of (a : list Z) (x : Z) : x ∈ sorted a <-> x ∈ a.
Proof. unfold sorted. now rewrite merge_sort_Permutation. Qed.

Lemma sorted_small (a : list Z) (B : Z) :
  Forall (fun x => Z.abs x < B) a -> Forall (fun x => Z.abs x < B) (sorted a).
Proof. intros H. unfold sorted. now rewrite merge_sort_Permutation. Qed.





(** X13: at the percentages 0, 25, 50, 75 and 100 the result is the element
    of the list of values at the index [per / 100 * (n - 1)] when that is
    whole, and otherwise the linear interpolation between the two
    neighbours of that index, computed without any rounding. *)
Theorem scoreatpercentile_quartiles (a : list Z) (per : pynumber) (sort : bool)
    (Q : Z)
    (Hper : as_double per = Ok (of_Z (25 * Q))) (HQ : 0 <= Q <= 4)
    (Hne : (0 < length a)%nat) (Hlen : Z.of_nat (length a) <= 2 ^ 49)
    (Hsmall : Forall (fun x => Z.abs x < 2 ^ 50) a) :
  let values := if sort then sorted a else a in
  let J := Q * (Z.of_nat (length a) - 1) in
  let i := Z.to_nat (J / 4) in
  if J mod 4 =? 0 then
    exists v, values !! i = Some v /\
              scoreatpercentile a per [] sort = Ok (PyInt v)
  else
    exists va vb x,
      values !! i = Some va /\ values !! S i = Some vb /\
      scoreatpercentile a per [] sort = Ok (PyFloat x) /\
      vfloat x /\
      Zval x * 4 = ((4 - J mod 4) * va + J mod 4 * vb) * 2 ^ 1200.
Proof.
  intros values J i.
  pose proof (score_run a per sort Q Hper ltac:(lia) Hne Hlen ltac:(lia)) as Hrun.
  cbn zeta in Hrun. fold values J in Hrun. rewrite Hrun. clear Hrun.
  assert (length values = length a) as Hl
    by (subst values; destruct sort; [apply sorted_length|reflexivity]).
  assert (Forall (fun x => Z.abs x < 2 ^ 50) values) as Hsv
    by (subst values; destruct sort; [now apply sorted_small|assumption]).
  assert (0 <= J) as HJ0 by (subst J; nia).
  assert (J <= 4 * (Z.of_nat (length a) - 1)) as HJ1 by (subst J; nia).
  pose proof (Z.div_mod J 4 ltac:(lia)) as Hdm.
  pose proof (Z.mod_pos_bound J 4 ltac:(lia)) as Hmb.
  rewrite Z.quot_div_nonneg by lia.
  assert (J / 4 = Z.of_nat i) as Ei by (subst i; lia).
  rewrite Ei.
  destruct (Z.eqb_spec (J mod 4) 0) as [E0|N0].
  - destruct (lookup_below values i) as [v Hv]; [lia|].
    exists v. split; [exact Hv|].
    now rewrite (list_getitem_nonneg _ _ _ Hv).
  - destruct (lookup_below values i) as [va Hva]; [lia|].
    destruct (lookup_below values (S i)) as [vb Hvb]; [lia|].
    exists va, vb, (of_scaled ((4 - J mod 4) * va + J mod 4 * vb) (-2)).
    split; [exact Hva|]. split; [exact Hvb|].
    rewrite (list_getitem_nonneg _ _ _ Hva). cbn [mbind result_bind].
    replace (Z.of_nat i + 1) with (Z.of_nat (S i)) by lia.
    rewrite (list_getitem_nonneg _ _ _ Hvb). cbn [mbind result_bind].
    rewrite Forall_forall in Hsv.
    pose proof (Hsv va (list_elem_of_lookup_2 _ _ _ Hva)) as Ba.
    pose proof (Hsv vb (list_elem_of_lookup_2 _ _ _ Hvb)) as Bb.
    rewrite interpolate_quarters by (try assumption; lia).
    cbn [mbind result_bind]. split; [reflexivity|].
    assert (2 ^ 53 = 8 * 2 ^ 50) as E53 by reflexivity.
    assert (0 < 2 ^ 50) as P50 by (apply pow2_pos; lia).
    destruct (of_scaled_small ((4 - J mod 4) * va + J mod 4 * vb) (-2))
      as [Hz Hzv]; [nia|lia|].
    split; [exact Hz|]. rewrite Hzv. change (-2 + 1200) with 1198.
    change (2 ^ 1200) with (4 * 2 ^ 1198). lia.
Qed.

Lemma scoreatpercentile_quartiles_witness :
  let a := [1; 2; 3; 4] in
  let values := sorted a in
  let J := 1 * (Z.of_nat (length a) - 1) in
  let i := Z.to_nat (J / 4) in
  if J mod 4 =? 0 then
    exists v, values !! i = Some v /\
              scoreatpercentile a (PyInt 25) [] true = Ok (PyInt v)
  else
    exists va vb x,
      values !! i = Some va /\ values !! S i = Some vb /\
      scoreatpercentile a (PyInt 25) [] true = Ok (PyFloat x) /\
      vfloat x /\
      Zval x * 4 = ((4 - J mod 4) * va + J mod 4 * vb) * 2 ^ 1200.
Proof.
  assert (as_double (PyInt 25) = Ok (of_Z (25 * 1))) as Hper by reflexivity.
  assert (0 <= 1 <= 4) as HQ by lia.
  assert (0 < length [1; 2; 3; 4])%nat as Hne by (cbn; lia).
  assert (Z.of_nat (length [1; 2; 3; 4]) <= 2 ^ 49) as Hlen
    by (vm_compute; discriminate).
  assert (Forall (fun x => Z.abs x < 2 ^ 50) [1; 2; 3; 4]) as Hsmall
    by (repeat constructor).
  exact (scoreatpercentile_quartiles [1; 2; 3; 4] (PyInt 25) true 1
           Hper HQ Hne Hlen Hsmall).
Defined.

(** X14: with sorting, percentile 0 is the least and percentile 100 the
    greatest element of the sample. *)
Theorem scoreatpercentile_min_max (a : list Z)
    (Hne : (0 < length a)%nat) (Hlen : Z.of_nat (length a) <= 2 ^ 49) :
  exists lo hi : Z,
    scoreatpercentile a (PyInt 0) [] true = Ok (PyInt lo) /\
    scoreatpercentile a (PyInt 100) [] true = Ok (PyInt hi) /\
    lo ∈ a /\ hi ∈ a /\ forall x, x ∈ a -> lo <= x <= hi.
Proof.
  pose proof (sorted_length a) as Hl. pose proof (sorted_strongly a) as Hs.
  destruct (lookup_below (sorted a) 0) as [lo Hlo]; [lia|].
  destruct (lookup_below (sorted a) (length a - 1)) as [hi Hhi]; [lia|].
  exists lo, hi.
  split.
  { rewrite (score_run a (PyInt 0) true 0 eq_refl ltac:(lia) Hne Hlen ltac:(lia)).
    cbn zeta. rewrite Z.mul_0_l. change (0 mod 4 =? 0) with true.
    change (Z.quot 0 4) with (Z.of_nat 0). cbn iota.
    now rewrite (list_getitem_nonneg _ _ _ Hlo). }
  split.
  { rewrite (score_run a (PyInt 100) true 4 eq_refl ltac:(lia) Hne Hlen ltac:(lia)).
    cbn zeta. rewrite Z.mul_comm, Z.mod_mul by lia.
    change (0 =? 0) with true. cbn iota.
    rewrite Z.quot_mul by lia.
    replace (Z.of_nat (length a) - 1) with (Z.of_nat (length a - 1)) by lia.
    now rewrite (list_getitem_nonneg _ _ _ Hhi). }
  split; [apply sorted_elem_of; now apply list_elem_of_lookup_2 in Hlo|].
  split; [apply sorted_elem_of; now apply list_elem_of_lookup_2 in Hhi|].
  intros x Hx. apply sorted_elem_of in Hx.
  apply list_elem_of_lookup_1 in Hx as [j Hj].
  pose proof (lookup_lt_Some _ _ _ Hj) as Hjl.
  split.
  - apply (sorted_lookup_le (sorted a) 0 j); [assumption..|lia].
  - apply (sorted_lookup_le (sorted a) j (length a - 1)); [assumption..|lia].
Qed.

Lemma scoreatpercentile_min_max_witness :
  exists lo hi : Z,
    scoreatpercentile [3; 1; 2] (PyInt 0) [] true = Ok (PyInt lo) /\
    scoreatpercentile [3; 1; 2] (PyInt 100) [] true = Ok (PyInt hi) /\
    lo ∈ [3; 1; 2] /\ hi ∈ [3; 1; 2] /\ forall x, x ∈ [3; 1; 2] -> lo <= x <= hi.
Proof.
  assert (0 < length [3; 1; 2])%nat as Hne by (cbn; lia).
  assert (Z.of_nat (length [3; 1; 2]) <= 2 ^ 49) as Hlen
    by (vm_compute; discriminate).
  exact (scoreatpercentile_min_max [3; 1; 2] Hne Hlen).
Defined.



(** X16: with sorting, the result does not depend on the order of the
    sample. *)
Theorem scoreatpercentile_permutation (a b : list Z) (per : pynumber)
    (Hperm : a ≡ₚ b) :
  scoreatpercentile a per [] true = scoreatpercentile b per [] true.
Proof.
  assert (sorted a = sorted b) as Hs.
  { apply (Sorted_unique Z.le).
    - apply Sorted_merge_sort. apply _.
    - apply Sorted_merge_sort. apply _.
    - unfold sorted. now rewrite !merge_sort_Permutation. }
  rewrite !scoreatpercentile_no_limit. cbn zeta. now rewrite Hs.
Qed.

Lemma scoreatpercentile_permutation_witness :
  scoreatpercentile [3; 1; 2] (PyInt 50) [] true
  = scoreatpercentile [1; 2; 3] (PyInt 50) [] true.
Proof.
  assert ([3; 1; 2] ≡ₚ [1; 2; 3]) as Hperm.
  { etrans; [apply perm_swap|]. apply perm_skip, perm_swap. }
  exact (scoreatpercentile_permutation [3; 1; 2] [1; 2; 3] (PyInt 50) Hperm).
Defined.

Lemma int_of_float_raises (x : spec_float) (e : pyexc) :
  int_of_float x = Raise e ->
  exc_class e = "ValueError" \/ exc_class e = "OverflowError".
Proof.
  destruct x; cbn; intros [= <-]; cbn; auto.
Qed.

(** X17: an empty sample never gives a value: every call raises. *)
Theorem scoreatpercentile_empty (per : pynumber) (sort : bool) :
  exists e : pyexc,
    scoreatpercentile [] per [] sort = Raise e /\
    (exc_class e = "IndexError" \/ exc_class e = "ValueError" \/
     exc_class e = "OverflowError").
Proof.
  rewrite scoreatpercentile_no_limit. cbn zeta.
  assert ((if sort then sorted [] else []) = []) as -> by (now destruct sort).
  destruct (as_double per) as [p|e] eqn:Ep.
  2:{ exists e. split; [reflexivity|].
      destruct per as [z|x]; cbn in Ep; [|discriminate].
      destruct (is_finite (of_Z z)); [discriminate|].
      injection Ep as <-. cbn. auto. }
  cbn [mbind result_bind].
  change (as_double (PyInt (Z.of_nat (length []) - 1))) with (Ok (of_Z (-1))).
  cbn [mbind result_bind].
  set (idx := fmul (fdiv p (of_Z 100)) (of_Z (-1))).
  destruct (int_of_float idx) as [i|e] eqn:Ei.
  - exists (IndexError "list index out of range").
    split; [|now left].
    destruct (feqb (float_mod_1 idx) (of_Z 0)); cbn [mbind result_bind];
      rewrite !list_getitem_nil; reflexivity.
  - exists e. split.
    + destruct (feqb (float_mod_1 idx) (of_Z 0)); reflexivity.
    + right. now apply int_of_float_raises in Ei.
Qed.

(** X18: the percentage is not checked against the range 0 to 100: with at
    least two elements, -100 gives the second element of the list of values
    (the index counts from the end), and 200 raises [IndexError]. *)
Theorem scoreatpercentile_per_unchecked (a : list Z) (sort : bool)
    (Hlen2 : (2 <= length a)%nat) (Hlen : Z.of_nat (length a) <= 2 ^ 49) :
  (exists v, (if sort then sorted a else a) !! 1%nat = Some v /\
             scoreatpercentile a (PyInt (-100)) [] sort = Ok (PyInt v)) /\
  scoreatpercentile a (PyInt 200) [] sort
  = Raise (IndexError "list index out of range").
Proof.
  set (values := if sort then sorted a else a).
  assert (length values = length a) as Hl
    by (subst values; destruct sort; [apply sorted_length|reflexivity]).
  split.
  - destruct (lookup_below values 1) as [v Hv]; [lia|].
    exists v. split; [exact Hv|].
    rewrite (score_run a (PyInt (-100)) sort (-4) eq_refl ltac:(lia)
               ltac:(lia) Hlen ltac:(lia)).
    cbn zeta. fold values.
    replace (-4 * (Z.of_nat (length a) - 1))
      with (- Z.of_nat (length a - 1) * 4) by lia.
    rewrite Z.mod_mul by lia. change (0 =? 0) with true. cbn iota.
    rewrite Z.quot_mul by lia.
    rewrite (list_getitem_negative values (length a - 1) v); [reflexivity|lia|].
    replace (length values - (length a - 1))%nat with 1%nat by lia. exact Hv.
  - rewrite (score_run a (PyInt 200) sort 8 eq_refl ltac:(lia)
               ltac:(lia) Hlen ltac:(lia)).
    cbn zeta. fold values.
    replace (8 * (Z.of_nat (length a) - 1))
      with (2 * Z.of_nat (length a - 1) * 4) by lia.
    rewrite Z.mod_mul by lia. change (0 =? 0) with true. cbn iota.
    rewrite Z.quot_mul by lia.
    rewrite list_getitem_out_of_range by lia. reflexivity.
Qed.

Lemma scoreatpercentile_per_unchecked_witness :
  (exists v, sorted [1; 2; 3; 4] !! 1%nat = Some v /\
             scoreatpercentile [1; 2; 3; 4] (PyInt (-100)) [] true = Ok (PyInt v)) /\
  scoreatpercentile [1; 2; 3; 4] (PyInt 200) [] true
  = Raise (IndexError "list index out of range").
Proof.
  assert (2 <= length [1; 2; 3; 4])%nat as Hlen2 by (cbn; lia).
  assert (Z.of_nat (length [1; 2; 3; 4]) <= 2 ^ 49) as Hlen
    by (vm_compute; discriminate).
  exact (scoreatpercentile_per_unchecked [1; 2; 3; 4] true Hlen2 Hlen).
Defined.

(** X19: with sorting and a non-empty [limit], a call on a list never gives
    a value. The mask [(limit[0] < a) & (a < limit[1])] compares numbers
    with the list itself and is the truth value [False]; indexing with it
    binds [values] to the first element, and [len(values)] then raises
    [TypeError]. Nothing is filtered. *)
Theorem scoreatpercentile_limit_raises (a : list Z) (per : pynumber)
    (limit : list pynumber) (Hlimit : limit <> []) :
  exists e : pyexc,
    scoreatpercentile a per limit true = Raise e /\
    (exc_class e = "TypeError" \/ exc_class e = "IndexError" \/
     exc_class e = "OverflowError") /\
    (a <> [] -> (2 <= length limit)%nat ->
     (exists p, as_double per = Ok p) ->
     e = TypeError "object of type 'int' has no len()").
Proof.
  destruct limit as [|lower [|upper rest]]; [contradiction| |].
  - exists (IndexError "tuple index out of range").
    split; [reflexivity|]. split; [auto|]. cbn [length]. lia.
  - unfold scoreatpercentile.
    change (tuple_getitem (lower :: upper :: rest) 0) with (Ok lower).
    change (tuple_getitem (lower :: upper :: rest) 1) with (Ok upper).
    cbn [mbind result_bind number_lt_list list_lt_number andb Z.b2z].
    pose proof (sorted_length a) as Hl.
    destruct (sorted a) as [|v l] eqn:Es.
    + exists (IndexError "list index out of range").
      split; [reflexivity|]. split; [auto|].
      intros Ha. destruct a; [contradiction|discriminate].
    + change (list_getitem (v :: l) 0) with (Ok v).
      cbn [mbind result_bind].
      destruct (as_double per) as [p|e] eqn:Ep.
      * exists (TypeError "object of type 'int' has no len()").
        split; [reflexivity|]. split; [auto|]. reflexivity.
      * exists e. split; [reflexivity|]. split.
        -- destruct per as [z|x]; cbn in Ep; [|discriminate].
           destruct (is_finite (of_Z z)); [discriminate|].
           injection Ep as <-. cbn. auto.
        -- intros _ _ [p Hp]. discriminate.
Qed.

Lemma scoreatpercentile_limit_raises_witness :
  [PyInt 0; PyInt 10] <> [] /\
  scoreatpercentile [1; 2; 3] (PyInt 50) [PyInt 0; PyInt 10] true
  = Raise (TypeError "object of type 'int' has no len()").
Proof.
  assert ([PyInt 0; PyInt 10] <> []) as Hlimit by discriminate.
  split; [exact Hlimit|].
  destruct (scoreatpercentile_limit_raises [1; 2; 3] (PyInt 50)
              [PyInt 0; PyInt 10] Hlimit) as (e & E & _ & He).
  rewrite E. f_equal. apply He.
  - discriminate.
  - cbn. lia.
  - now exists (of_Z 50).
Defined.

(** The six examples of the docstring: 1.75, 2.5, 3.25, 25.5, 40 and 42.5. *)
Remark scoreatpercentile_docstring :
  let a := [1; 2; 3; 4] in
  let b := [6; 47; 49; 15; 42; 41; 7; 39; 43; 40; 36] in
  scoreatpercentile a (PyInt 25) [] true = Ok (PyFloat (of_scaled 7 (-2))) /\
  scoreatpercentile a (PyInt 50) [] true = Ok (PyFloat (of_scaled 5 (-1))) /\
  scoreatpercentile a (PyInt 75) [] true = Ok (PyFloat (of_scaled 13 (-2))) /\
  scoreatpercentile b (PyInt 25) [] true = Ok (PyFloat (of_scaled 51 (-1))) /\
  scoreatpercentile b (PyInt 50) [] true = Ok (PyInt 40) /\
  scoreatpercentile b (PyInt 75) [] true = Ok (PyFloat (of_scaled 85 (-1))).
Proof. vm_compute. repeat split. Qed.
